(** * DeepResearch Agent front end (app/script.js): a shallow embedding

    The page script is a set of event handlers over a handful of DOM nodes and
    two global variables ([activeResearchId], [pollingTimer]).  Strings are
    JavaScript strings, i.e. sequences of UTF-16 code units; the regular
    expressions of [markdownToHtml] have no [u] flag and therefore work on
    code units as well. *)

From Stdlib Require Import Ascii String Floats.
From Stdlib Require DecimalString.
From Stdlib Require Import List Bool Arith NArith ZArith Lia.
Import ListNotations.

Local Open Scope nat_scope.
Local Open Scope list_scope.

(** ** JavaScript strings *)

Module JsString.

Definition code_unit := N.
Definition jsstr := list code_unit.

(** Literals are written as Rocq strings (UTF-8 in the source file) and decoded
    to UTF-16 code units. *)
Definition cont (b : ascii) : N := N.land (N_of_ascii b) 63.

Definition of_code_point (cp : N) : jsstr :=
  if (cp <? 65536)%N then [cp]
  else let v := (cp - 65536)%N in
       [(55296 + N.shiftr v 10)%N; (56320 + N.land v 1023)%N].

Fixpoint js (s : string) : jsstr :=
  match s with
  | EmptyString => []
  | String b0 r0 =>
    let n0 := N_of_ascii b0 in
    if (n0 <? 128)%N then n0 :: js r0
    else if (n0 <? 224)%N then
      match r0 with
      | String b1 r1 => (N.shiftl (N.land n0 31) 6 + cont b1)%N :: js r1
      | EmptyString => [n0]
      end
    else if (n0 <? 240)%N then
      match r0 with
      | String b1 (String b2 r2) =>
        (N.shiftl (N.land n0 15) 12 + N.shiftl (cont b1) 6 + cont b2)%N :: js r2
      | _ => [n0]
      end
    else
      match r0 with
      | String b1 (String b2 (String b3 r3)) =>
        of_code_point (N.shiftl (N.land n0 7) 18 + N.shiftl (cont b1) 12
                       + N.shiftl (cont b2) 6 + cont b3)%N ++ js r3
      | _ => [n0]
      end
  end.

(** The double quote, for HTML attribute values inside literals. *)
Definition dq : jsstr := [34%N].

Definition eqb (a b : jsstr) : bool :=
  if list_eq_dec N.eq_dec a b then true else false.

(** ECMAScript LineTerminator: LF, CR, LS, PS. *)
Definition is_line_terminator (c : code_unit) : bool :=
  (c =? 10)%N || (c =? 13)%N || (c =? 8232)%N || (c =? 8233)%N.

(** ECMAScript WhiteSpace: TAB, VT, FF, ZWNBSP and the Unicode category Zs. *)
Definition is_white_space (c : code_unit) : bool :=
  (c =? 9)%N || (c =? 11)%N || (c =? 12)%N || (c =? 32)%N || (c =? 160)%N
  || (c =? 5760)%N || ((8192 <=? c)%N && (c <=? 8202)%N) || (c =? 8239)%N
  || (c =? 8287)%N || (c =? 12288)%N || (c =? 65279)%N.

(** What [String.prototype.trim] strips and what the regex class [\s]
    matches: WhiteSpace and LineTerminator. *)
Definition is_space (c : code_unit) : bool :=
  is_white_space c || is_line_terminator c.

(** The regex class [\d]. *)
Definition is_digit (c : code_unit) : bool := (48 <=? c)%N && (c <=? 57)%N.

Fixpoint drop_while (p : code_unit -> bool) (s : jsstr) : jsstr :=
  match s with
  | [] => []
  | c :: s' => if p c then drop_while p s' else s
  end.

Fixpoint take_while (p : code_unit -> bool) (s : jsstr) : jsstr :=
  match s with
  | [] => []
  | c :: s' => if p c then c :: take_while p s' else []
  end.

(** [s.trim()] *)
Definition trim (s : jsstr) : jsstr :=
  rev (drop_while is_space (rev (drop_while is_space s))).

(** Truthiness of a string value: every string but the empty one. *)
Definition truthy (s : jsstr) : bool :=
  match s with [] => false | _ :: _ => true end.

Fixpoint starts_with (p s : jsstr) : bool :=
  match p, s with
  | [], _ => true
  | _ :: _, [] => false
  | a :: p', b :: s' => (a =? b)%N && starts_with p' s'
  end.

(** [arr.join(sep)] *)
Fixpoint join (sep : jsstr) (l : list jsstr) : jsstr :=
  match l with
  | [] => []
  | [x] => x
  | x :: l' => x ++ sep ++ join sep l'
  end.

(** Decimal rendering of a non-negative integer, as in a template literal. *)
Definition of_nat (n : nat) : jsstr :=
  js (DecimalString.NilZero.string_of_uint (Nat.to_uint n)).

End JsString.
Import JsString.

(** ** markdownToHtml *)

Module Markdown.

(** A regular expression of the script, as the function [replace] uses it at
    one position of the subject: given the code unit before the position (none
    at the start of the subject) and the subject from the position on, it
    yields the replacement text and the length of the match.  None of the
    expressions of the script matches the empty string. *)
Definition matcher := option code_unit -> jsstr -> option (jsstr * nat).

(** [subject.replace(re, ...)] for a global [re]: matches are searched from
    left to right, the search resumes where the previous match ended, and
    what lies between matches is kept.  [skip] counts the code units of the
    current match that are still to be passed over. *)
Fixpoint scan (m : matcher) (skip : nat) (prev : option code_unit) (s : jsstr)
  : jsstr :=
  match s with
  | [] => []
  | c :: s' =>
    match skip with
    | S k => scan m k (Some c) s'
    | O =>
      match m prev s with
      | Some (out, len) => out ++ scan m (pred len) (Some c) s'
      | None => c :: scan m 0 (Some c) s'
      end
    end
  end.

Definition replace_all (m : matcher) (s : jsstr) : jsstr := scan m 0 None s.

(** [^] under the [m] flag: at the start of the subject or right after a
    line terminator. *)
Definition at_line_start (prev : option code_unit) : bool :=
  match prev with
  | None => true
  | Some c => is_line_terminator c
  end.

(** [(.*$)] under the [m] flag: [.] matches anything but a line terminator,
    so the greedy group runs to the end of the line, where [$] holds. *)
Definition rest_of_line (s : jsstr) : jsstr :=
  take_while (fun c => negb (is_line_terminator c)) s.

(** The replacement [<tag>$1</tag>]. *)
Definition wrap (tag cap : jsstr) : jsstr :=
  js "<" ++ tag ++ js ">" ++ cap ++ js "</" ++ tag ++ js ">".

(** [/^### (.*$)/gm], [/^## (.*$)/gm], [/^# (.*$)/gm]: [marker] is the literal
    prefix including its space. *)
Definition heading (marker tag : jsstr) : matcher :=
  fun prev s =>
    if at_line_start prev && starts_with marker s then
      let cap := rest_of_line (skipn (length marker) s) in
      Some (wrap tag cap, length marker + length cap)
    else None.

(** The lazy group of [D(.*?)D]: the shortest run of non-terminators that is
    followed by the delimiter. *)
Fixpoint find_close (d s : jsstr) : option jsstr :=
  if starts_with d s then Some []
  else match s with
       | [] => None
       | c :: s' =>
         if is_line_terminator c then None
         else option_map (cons c) (find_close d s')
       end.

(** [/\*\*(.*?)\*\*/g] and [/\*(.*?)\*/g]. *)
Definition delimited (d tag : jsstr) : matcher :=
  fun _ s =>
    if starts_with d s then
      match find_close d (skipn (length d) s) with
      | Some cap => Some (wrap tag cap, length d + length cap + length d)
      | None => None
      end
    else None.

(** The tail [\s+(.*$)] of both list expressions: a greedy, non-empty run of
    [\s] (which may cross line ends) and then the rest of the line. *)
Definition spaces_then_line (s : jsstr) : option (jsstr * nat) :=
  let ws := take_while is_space s in
  match ws with
  | [] => None
  | _ :: _ =>
    let cap := rest_of_line (drop_while is_space s) in
    Some (cap, length ws + length cap)
  end.

(** [/^\d+\.\s+(.*$)/gm] *)
Definition ordered_item : matcher :=
  fun prev s =>
    if at_line_start prev then
      let ds := take_while is_digit s in
      match ds, drop_while is_digit s with
      | _ :: _, dot :: r =>
        if (dot =? 46)%N then
          match spaces_then_line r with
          | Some (cap, n) => Some (wrap (js "li") cap, length ds + 1 + n)
          | None => None
          end
        else None
      | _, _ => None
      end
    else None.

(** [/^-\s+(.*$)/gm] *)
Definition unordered_item : matcher :=
  fun prev s =>
    if at_line_start prev then
      match s with
      | dash :: r =>
        if (dash =? 45)%N then
          match spaces_then_line r with
          | Some (cap, n) => Some (wrap (js "li") cap, 1 + n)
          | None => None
          end
        else None
      | [] => None
      end
    else None.

(** [/\n/g] replaced by [<br>]. *)
Definition line_breaks (s : jsstr) : jsstr :=
  flat_map (fun c => if (c =? 10)%N then js "<br>" else [c]) s.

(** The argument of [markdownToHtml] as callers pass it: a report field that
    may be missing. *)
Inductive md_arg :=
| Undefined
| Null
| Str (s : jsstr).

Definition h5 := heading (js "### ") (js "h5").
Definition h4 := heading (js "## ") (js "h4").
Definition h3 := heading (js "# ") (js "h3").
Definition strong := delimited (js "**") (js "strong").
Definition em := delimited (js "*") (js "em").

Definition convert (s : jsstr) : jsstr :=
  let s := replace_all h5 s in
  let s := replace_all h4 s in
  let s := replace_all h3 s in
  let s := replace_all strong s in
  let s := replace_all em s in
  let s := replace_all ordered_item s in
  let s := replace_all unordered_item s in
  line_breaks s.

Definition markdownToHtml (markdown : md_arg) : jsstr :=
  match markdown with
  | Str ((_ :: _) as s) => convert s
  | _ => []
  end.

(** Text without line terminators and without asterisks: what a heading line
    may hold so that no later rule of [convert] applies to it. *)
Definition plain_unit (c : code_unit) : bool :=
  negb (is_line_terminator c) && negb (c =? 42)%N.

Definition plain (s : jsstr) : bool := forallb plain_unit s.

(** Expressions anchored by [^] match at line starts only. *)
Definition anchored (m : matcher) : Prop :=
  forall prev s, at_line_start prev = false -> m prev s = None.

End Markdown.
Import Markdown.

(** ** The data received from the backend *)

Record SourceRef := { url : jsstr; title : option jsstr }.

Record AnalysisStep := {
  question : jsstr;
  answer : md_arg;
  step_sources : list jsstr
}.

Record Report := {
  topic : jsstr;
  summary : md_arg;
  key_findings : list md_arg;
  detailed_analysis : md_arg;
  analysis_steps : list AnalysisStep;
  sources : list SourceRef
}.

(** The JSON of [GET /api/research/status/{id}].  [report] and [error] are
    [None] when the field is missing or null; [progress] is a JavaScript
    number, that is a binary64 floating-point value. *)
Record JobStatus := {
  status : jsstr;
  progress : float;
  current_step : jsstr;
  report : option Report;
  error : option jsstr
}.

(** How an awaited network call ends: [fetch] and [response.json()] gave a
    value, the response was not [ok], or one of the two promises rejected
    with an error carrying [message]. *)
Inductive outcome (A : Type) :=
| Fulfilled (a : A)
| NotOk (code : nat)
| Rejected (message : jsstr).
Arguments Fulfilled {A} a.
Arguments NotOk {A} code.
Arguments Rejected {A} message.

(** [error.message] in the [catch] blocks; a response that is not [ok] throws
    [new Error(`API错误: ${response.status}`)]. *)
Definition error_message {A} (o : outcome A) : jsstr :=
  match o with
  | Fulfilled _ => []
  | NotOk code => js "API错误: " ++ of_nat code
  | Rejected m => m
  end.

(** ** The page *)

Module Page.

(** Which of the four cards carry the class [d-none]. *)
Record Regions := {
  form_hidden : bool;       (* researchForm.closest('.card') *)
  progress_hidden : bool;   (* researchProgress *)
  results_hidden : bool;    (* researchResults *)
  error_hidden : bool       (* errorCard *)
}.

(** One accordion item appended to [researchSteps]: the values the template
    interpolates ([index] gives the three element ids). *)
Record StepItem := {
  item_index : nat;
  item_question : jsstr;
  item_answer : jsstr;
  item_sources : jsstr
}.

Record ReportView := {
  reportTopic : jsstr;
  reportSummary : jsstr;
  keyFindings : list jsstr;
  detailedAnalysis : jsstr;
  researchSteps : list StepItem;
  sourcesList : list jsstr
}.

Record Dom := {
  regions : Regions;
  startResearchBtn_disabled : bool;
  startResearchBtn_innerHTML : jsstr;
  newResearchBtn_disabled : bool;
  progressTopic : jsstr;
  percentage : float;       (* progressBar: width, aria-valuenow and text *)
  currentStep : jsstr;
  reportView : ReportView;
  errorMessage : jsstr
}.

(** The body of [POST /api/research/start]; [depth] and [max_sources] are the
    raw values of the inputs, which the script passes through [parseInt]. *)
Record StartRequest := {
  req_topic : jsstr;
  req_depth : jsstr;
  req_max_sources : jsstr
}.

(** The script's two globals, the document, and what the browser keeps for
    the script: the interval timers that are set, and the network calls whose
    continuation is still waiting ([await]). *)
Record State := {
  dom : Dom;
  activeResearchId : option jsstr;
  pollingTimer : option nat;
  timers : list nat;                 (* intervals set and not cleared *)
  next_timer : nat;                  (* the id [setInterval] returns next *)
  starting : list StartRequest;      (* awaited POSTs, with their [topic] *)
  fetching : list (option jsstr);    (* awaited GETs, with the id they ask for *)
  console : list (jsstr * jsstr)     (* console.error(label, error) *)
}.

Definition with_dom (f : Dom -> Dom) (st : State) : State :=
  {| dom := f (dom st);
     activeResearchId := activeResearchId st;
     pollingTimer := pollingTimer st;
     timers := timers st;
     next_timer := next_timer st;
     starting := starting st;
     fetching := fetching st;
     console := console st |}.

Definition set_regions (r : Regions) (d : Dom) : Dom :=
  {| regions := r;
     startResearchBtn_disabled := startResearchBtn_disabled d;
     startResearchBtn_innerHTML := startResearchBtn_innerHTML d;
     newResearchBtn_disabled := newResearchBtn_disabled d;
     progressTopic := progressTopic d;
     percentage := percentage d;
     currentStep := currentStep d;
     reportView := reportView d;
     errorMessage := errorMessage d |}.

Definition set_startResearchBtn (disabled : bool) (html : jsstr) (d : Dom) : Dom :=
  {| regions := regions d;
     startResearchBtn_disabled := disabled;
     startResearchBtn_innerHTML := html;
     newResearchBtn_disabled := newResearchBtn_disabled d;
     progressTopic := progressTopic d;
     percentage := percentage d;
     currentStep := currentStep d;
     reportView := reportView d;
     errorMessage := errorMessage d |}.

Definition set_newResearchBtn_disabled (b : bool) (d : Dom) : Dom :=
  {| regions := regions d;
     startResearchBtn_disabled := startResearchBtn_disabled d;
     startResearchBtn_innerHTML := startResearchBtn_innerHTML d;
     newResearchBtn_disabled := b;
     progressTopic := progressTopic d;
     percentage := percentage d;
     currentStep := currentStep d;
     reportView := reportView d;
     errorMessage := errorMessage d |}.

Definition set_progressTopic (t : jsstr) (d : Dom) : Dom :=
  {| regions := regions d;
     startResearchBtn_disabled := startResearchBtn_disabled d;
     startResearchBtn_innerHTML := startResearchBtn_innerHTML d;
     newResearchBtn_disabled := newResearchBtn_disabled d;
     progressTopic := t;
     percentage := percentage d;
     currentStep := currentStep d;
     reportView := reportView d;
     errorMessage := errorMessage d |}.

Definition set_progress (p : float) (step : jsstr) (d : Dom) : Dom :=
  {| regions := regions d;
     startResearchBtn_disabled := startResearchBtn_disabled d;
     startResearchBtn_innerHTML := startResearchBtn_innerHTML d;
     newResearchBtn_disabled := newResearchBtn_disabled d;
     progressTopic := progressTopic d;
     percentage := p;
     currentStep := step;
     reportView := reportView d;
     errorMessage := errorMessage d |}.

Definition set_reportView (v : ReportView) (d : Dom) : Dom :=
  {| regions := regions d;
     startResearchBtn_disabled := startResearchBtn_disabled d;
     startResearchBtn_innerHTML := startResearchBtn_innerHTML d;
     newResearchBtn_disabled := newResearchBtn_disabled d;
     progressTopic := progressTopic d;
     percentage := percentage d;
     currentStep := currentStep d;
     reportView := v;
     errorMessage := errorMessage d |}.

Definition set_errorMessage (m : jsstr) (d : Dom) : Dom :=
  {| regions := regions d;
     startResearchBtn_disabled := startResearchBtn_disabled d;
     startResearchBtn_innerHTML := startResearchBtn_innerHTML d;
     newResearchBtn_disabled := newResearchBtn_disabled d;
     progressTopic := progressTopic d;
     percentage := percentage d;
     currentStep := currentStep d;
     reportView := reportView d;
     errorMessage := m |}.

(** [classList.add('d-none')] and [classList.remove('d-none')] on each card. *)
Definition set_form_hidden (b : bool) (r : Regions) : Regions :=
  {| form_hidden := b; progress_hidden := progress_hidden r;
     results_hidden := results_hidden r; error_hidden := error_hidden r |}.
Definition set_progress_hidden (b : bool) (r : Regions) : Regions :=
  {| form_hidden := form_hidden r; progress_hidden := b;
     results_hidden := results_hidden r; error_hidden := error_hidden r |}.
Definition set_results_hidden (b : bool) (r : Regions) : Regions :=
  {| form_hidden := form_hidden r; progress_hidden := progress_hidden r;
     results_hidden := b; error_hidden := error_hidden r |}.
Definition set_error_hidden (b : bool) (r : Regions) : Regions :=
  {| form_hidden := form_hidden r; progress_hidden := progress_hidden r;
     results_hidden := results_hidden r; error_hidden := b |}.

Definition on_regions (f : Regions -> Regions) (st : State) : State :=
  with_dom (fun d => set_regions (f (regions d)) d) st.

Definition set_activeResearchId (v : option jsstr) (st : State) : State :=
  {| dom := dom st; activeResearchId := v; pollingTimer := pollingTimer st;
     timers := timers st; next_timer := next_timer st;
     starting := starting st; fetching := fetching st; console := console st |}.

Definition set_timer_state (p : option nat) (ts : list nat) (n : nat)
    (st : State) : State :=
  {| dom := dom st; activeResearchId := activeResearchId st; pollingTimer := p;
     timers := ts; next_timer := n;
     starting := starting st; fetching := fetching st; console := console st |}.

Definition set_starting (l : list StartRequest) (st : State) : State :=
  {| dom := dom st; activeResearchId := activeResearchId st;
     pollingTimer := pollingTimer st; timers := timers st;
     next_timer := next_timer st;
     starting := l; fetching := fetching st; console := console st |}.

Definition set_fetching (l : list (option jsstr)) (st : State) : State :=
  {| dom := dom st; activeResearchId := activeResearchId st;
     pollingTimer := pollingTimer st; timers := timers st;
     next_timer := next_timer st;
     starting := starting st; fetching := l; console := console st |}.

Definition console_error (label msg : jsstr) (st : State) : State :=
  {| dom := dom st; activeResearchId := activeResearchId st;
     pollingTimer := pollingTimer st; timers := timers st;
     next_timer := next_timer st;
     starting := starting st; fetching := fetching st;
     console := console st ++ [(label, msg)] |}.

(** *** The handlers of script.js *)

Definition play_label : jsstr :=
  js "<i class=" ++ dq ++ js "bi bi-play-fill me-2" ++ dq ++ js "></i>开始研究".

Definition spinner_label : jsstr :=
  js "<span class=" ++ dq ++ js "spinner-border spinner-border-sm" ++ dq
  ++ js " role=" ++ dq ++ js "status" ++ dq
  ++ js " aria-hidden=" ++ dq ++ js "true" ++ dq ++ js "></span> 正在启动...".

(** [Math.round(x)] on binary64 numbers: the integral number closest to [x],
    the one towards plus infinity when two are equally close; NaN, the
    infinities and the zeros are returned as they are, and a negative [x] not
    below -0.5 gives -0.  From 2^52 on every number is integral.  Below,
    adding and subtracting 2^52 rounds to an integral number [r] next to [x],
    from which the floor [f] of [x] is taken; [x - f] is exact. *)
Definition two_52 : float := 4503599627370496%float.

Definition Math_round (x : float) : float :=
  (if abs x <? two_52 then
     if x =? 0 then x
     else if (x <? 0) && (-0.5 <=? x) then -0
     else
       let r := if x <? 0 then (x - two_52) + two_52
                else (x + two_52) - two_52 in
       let f := if x <? r then r - 1 else r in
       if 0.5 <=? x - f then f + 1 else f
   else x)%float.

Definition updateProgress (p : float) (step : jsstr) (st : State) : State :=
  with_dom (set_progress p step) st.

Definition showProgressView (topic : jsstr) (st : State) : State :=
  let st := on_regions (set_form_hidden true) st in
  let st := on_regions (set_results_hidden true) st in
  let st := on_regions (set_error_hidden true) st in
  let st := on_regions (set_progress_hidden false) st in
  let st := with_dom (set_progressTopic topic) st in
  updateProgress 0%float (js "初始化中...") st.

Definition is_completed (s : JobStatus) : bool := eqb (status s) (js "completed").
Definition is_failed (s : JobStatus) : bool := eqb (status s) (js "failed").

Definition updateProgressView (s : JobStatus) (st : State) : State :=
  let progressPercentage := Math_round (progress s * 100)%float in
  let st := updateProgress progressPercentage (current_step s) st in
  if is_completed s || is_failed s
  then with_dom (set_newResearchBtn_disabled false) st
  else st.

(** [source.title && source.title !== '' ? source.title : source.url] *)
Definition linkText (source : SourceRef) : jsstr :=
  match title source with
  | Some t => if truthy t && negb (eqb t []) then t else url source
  | None => url source
  end.

(** The [innerHTML] of the list item made for one source. *)
Definition sourceItem (source : SourceRef) : jsstr :=
  js "<a href=" ++ dq ++ url source ++ dq ++ js " target=" ++ dq
  ++ js "_blank" ++ dq ++ js ">" ++ linkText source ++ js "</a>".

Definition stepItem (index : nat) (step : AnalysisStep) : StepItem :=
  {| item_index := index;
     item_question := question step;
     item_answer := markdownToHtml (answer step);
     item_sources :=
       if 0 <? length (step_sources step)
       then join (js ", ") (step_sources step)
       else js "无特定来源" |}.

Fixpoint stepItems (index : nat) (steps : list AnalysisStep) : list StepItem :=
  match steps with
  | [] => []
  | step :: rest => stepItem index step :: stepItems (S index) rest
  end.

Definition showResults (s : JobStatus) (st : State) : State :=
  match report s with
  | None => st
  | Some r =>
    let st := on_regions (set_progress_hidden true) st in
    let st := on_regions (set_error_hidden true) st in
    let st := on_regions (set_results_hidden false) st in
    with_dom (set_reportView
      {| reportTopic := topic r;
         reportSummary := markdownToHtml (summary r);
         keyFindings := map markdownToHtml (key_findings r);
         detailedAnalysis := markdownToHtml (detailed_analysis r);
         researchSteps := stepItems 0 (analysis_steps r);
         sourcesList := map sourceItem (sources r) |}) st
  end.

Definition showError (message : jsstr) (st : State) : State :=
  let st := on_regions (set_progress_hidden true) st in
  let st := on_regions (set_results_hidden true) st in
  let st := on_regions (set_error_hidden false) st in
  with_dom (set_errorMessage message) st.

(** [clearInterval(id)] *)
Definition clearInterval (id : nat) (ts : list nat) : list nat :=
  filter (fun t => negb (t =? id)) ts.

(** Timer ids are numbers; [if (pollingTimer)] is false for [null] and 0. *)
Definition stopPolling (st : State) : State :=
  match pollingTimer st with
  | Some t =>
    if t =? 0 then st
    else set_timer_state None (clearInterval t (timers st)) (next_timer st) st
  | None => st
  end.

Definition id_truthy (v : option jsstr) : bool :=
  match v with
  | Some s => truthy s
  | None => false
  end.

(** The synchronous part of [startPolling]: the interval is set and its id
    kept in [pollingTimer]; the callback is [tick] and [tick_settled] below. *)
Definition startPolling (st : State) : State :=
  if id_truthy (activeResearchId st) then
    let t := next_timer st in
    set_timer_state (Some t) (t :: timers st) (S t) st
  else st.

(** The interval callback up to its [await]: the status of the job that
    [activeResearchId] names now is requested. *)
Definition tick (st : State) : State :=
  set_fetching (fetching st ++ [activeResearchId st]) st.

(** The interval callback from its [await] on. *)
Definition tick_resumed (o : outcome JobStatus) (st : State) : State :=
  match o with
  | Fulfilled s =>
    let st := updateProgressView s st in
    if is_completed s || is_failed s then
      let st := stopPolling st in
      if is_completed s then showResults s st
      else if is_failed s then
        showError (js "研究失败: " ++
                   match error s with
                   | Some e => if truthy e then e else js "未知错误"
                   | None => js "未知错误"
                   end) st
      else st
    else st
  | _ =>
    let st := console_error (js "获取研究状态失败:") (error_message o) st in
    let st := stopPolling st in
    showError (js "获取研究状态失败: " ++ error_message o) st
  end.

(** [handleSubmitResearch] up to its [await]; the three arguments are the
    values of the inputs when the form is submitted. *)
Definition handleSubmitResearch (topic_value depth_value maxSources_value : jsstr)
    (st : State) : State :=
  let topic := trim topic_value in
  if negb (truthy topic) then showError (js "请输入研究主题") st
  else
    let st := with_dom (set_startResearchBtn true spinner_label) st in
    set_starting
      (starting st ++ [{| req_topic := topic; req_depth := depth_value;
                          req_max_sources := maxSources_value |}]) st.

(** [handleSubmitResearch] from its [await] on, for the request of [topic];
    a fulfilled call carries [data.research_id]. *)
Definition handleSubmitResearch_resumed (topic : jsstr)
    (o : outcome (option jsstr)) (st : State) : State :=
  match o with
  | Fulfilled research_id =>
    let st := set_activeResearchId research_id st in
    let st := showProgressView topic st in
    startPolling st
  | _ =>
    let st := console_error (js "启动研究失败:") (error_message o) st in
    let st := showError (js "启动研究失败: " ++ error_message o) st in
    with_dom (set_startResearchBtn false play_label) st
  end.

Definition resetResearch (st : State) : State :=
  let st := stopPolling st in
  let st := set_activeResearchId None st in
  let st := with_dom (set_startResearchBtn false play_label) st in
  let st := on_regions (set_form_hidden false) st in
  let st := on_regions (set_progress_hidden true) st in
  let st := on_regions (set_results_hidden true) st in
  on_regions (set_error_hidden true) st.

(** *** The page as the browser runs it *)

(** The document as index.html gives it: only the form card is shown, the
    button of the progress card is disabled, nothing is filled in. *)
Definition initial_dom : Dom :=
  {| regions := {| form_hidden := false; progress_hidden := true;
                   results_hidden := true; error_hidden := true |};
     startResearchBtn_disabled := false;
     startResearchBtn_innerHTML :=
       [10%N] ++ repeat 32%N 36 ++ play_label ++ [10%N] ++ repeat 32%N 32;
     newResearchBtn_disabled := true;
     progressTopic := [];
     percentage := 0%float;
     currentStep := [];
     reportView := {| reportTopic := []; reportSummary := []; keyFindings := [];
                      detailedAnalysis := []; researchSteps := [];
                      sourcesList := [] |};
     errorMessage := [] |}.

Definition initial : State :=
  {| dom := initial_dom;
     activeResearchId := None;
     pollingTimer := None;
     timers := [];
     next_timer := 1;
     starting := [];
     fetching := [];
     console := [] |}.

Inductive event :=
| Submit (topic_value depth_value maxSources_value : jsstr)
| StartSettled (k : nat) (o : outcome (option jsstr))
| TimerFired (t : nat)
| StatusSettled (k : nat) (o : outcome JobStatus)
| NewResearchClicked.

Definition remove_nth {A} (k : nat) (l : list A) : list A :=
  firstn k l ++ skipn (S k) l.

Definition ok_code (code : nat) : bool := (200 <=? code) && (code <=? 299).

Definition possible_outcome {A} (o : outcome A) : bool :=
  match o with
  | NotOk code => negb (ok_code code)
  | _ => true
  end.

(** What the browser can deliver in a state.  The form is submitted through
    its button, which must be rendered and enabled, and the topic input is
    [required]; the three "new research" buttons sit in the progress, results
    and error cards; a timer fires while it is set; a call settles while it is
    awaited. *)
Definition deliverable (st : State) (e : event) : bool :=
  let r := regions (dom st) in
  match e with
  | Submit topic_value _ _ =>
    negb (form_hidden r) && negb (startResearchBtn_disabled (dom st))
    && truthy topic_value
  | StartSettled k o => (k <? length (starting st)) && possible_outcome o
  | TimerFired t => existsb (Nat.eqb t) (timers st)
  | StatusSettled k o => (k <? length (fetching st)) && possible_outcome o
  | NewResearchClicked =>
    (negb (progress_hidden r) && negb (newResearchBtn_disabled (dom st)))
    || negb (results_hidden r) || negb (error_hidden r)
  end.

(** The handler an event runs. *)
Definition handle (e : event) (st : State) : State :=
  match e with
  | Submit t d m => handleSubmitResearch t d m st
  | StartSettled k o =>
    match nth_error (starting st) k with
    | Some rq =>
      handleSubmitResearch_resumed (req_topic rq) o
        (set_starting (remove_nth k (starting st)) st)
    | None => st
    end
  | TimerFired t => tick st
  | StatusSettled k o =>
    match nth_error (fetching st) k with
    | Some _ => tick_resumed o (set_fetching (remove_nth k (fetching st)) st)
    | None => st
    end
  | NewResearchClicked => resetResearch st
  end.

Definition step (st : State) (e : event) : option State :=
  if deliverable st e then Some (handle e st) else None.

Fixpoint run (st : State) (es : list event) : option State :=
  match es with
  | [] => Some st
  | e :: es' =>
    match step st e with
    | Some st' => run st' es'
    | None => None
    end
  end.

Definition reachable (st : State) : Prop := exists es, run initial es = Some st.

(** *** Reading the state *)

Definition visible_count (r : Regions) : nat :=
  length (filter negb [form_hidden r; progress_hidden r; results_hidden r;
                       error_hidden r]).

(** The controller is polling while it holds a timer. *)
Definition polling (st : State) : bool :=
  match pollingTimer st with Some _ => true | None => false end.

(** The page polls for one job with one timer and no call is awaited. *)
Definition polling_with (t : nat) (st : State) : Prop :=
  timers st = [t] /\ pollingTimer st = Some t /\ fetching st = [].

Definition still_running (s : JobStatus) : bool :=
  negb (is_completed s || is_failed s).

End Page.

Import Page.

(** ** Runs of the page used below *)

Module Scenario.

Definition job_status (st : jsstr) (p : float) (step : jsstr)
    (r : option Report) (e : option jsstr) : JobStatus :=
  {| status := st; progress := p; current_step := step;
     report := r; error := e |}.

Definition running (p : float) : JobStatus :=
  job_status (js "running") p (js "searching") None None.

Definition failed (e : option jsstr) : JobStatus :=
  job_status (js "failed") 0.5%float (js "searching") None e.

Definition completed (r : option Report) : JobStatus :=
  job_status (js "completed") 1%float (js "done") r None.

Definition submit (topic_value : jsstr) : event :=
  Submit topic_value (js "3") (js "10").

Definition started (research_id : string) : outcome (option jsstr) :=
  Fulfilled (Some (js research_id)).

(** One tick whose call settles before anything else happens, for each given
    answer of the backend. *)
Definition tick_events (t : nat) (answers : list JobStatus) : list event :=
  flat_map (fun s => [TimerFired t; StatusSettled 0 (Fulfilled s)]) answers.

Definition one_source_report : Report :=
  {| topic := js "t"; summary := Str (js "s"); key_findings := [];
     detailed_analysis := Undefined; analysis_steps := [];
     sources := [{| url := js "http://a"; title := Some [] |}] |}.

(** A blank topic is refused and the error card appears beside the form; a
    submission follows, and its error card button is pressed while the start
    call is awaited; the form is submitted again; then both start calls are
    answered. *)
Definition reset_while_starting : list event :=
  [ submit (js " ");
    submit (js "x");
    NewResearchClicked;
    submit (js "y");
    StartSettled 0 (started "a");
    StartSettled 0 (started "b") ].

(** The page at the end of that run. *)
Definition two_timer_page : State :=
  Eval vm_compute in
    match run initial reset_while_starting with
    | Some st => st
    | None => initial
    end.

(** The run above goes on: the job fails, the user starts over. *)
Definition reset_while_starting_then_over : list event :=
  reset_while_starting ++
  [ TimerFired 2;
    StatusSettled 0 (Fulfilled (failed (Some (js "timeout"))));
    NewResearchClicked ].

(** Two ticks fire before the first call is answered; the first answer is a
    failure. *)
Definition failure_with_call_in_flight : list event :=
  [ submit (js "x");
    StartSettled 0 (started "a");
    TimerFired 1;
    TimerFired 1;
    StatusSettled 0 (Fulfilled (failed (Some (js "timeout")))) ].

(** A job is completed without a report at its first tick. *)
Definition completed_without_report : list event :=
  [ submit (js "x");
    StartSettled 0 (started "a");
    TimerFired 1;
    StatusSettled 0 (Fulfilled (completed None)) ].

End Scenario.

(** ** Shapes of text and of pages, for the statements below *)

Module Shape.

(** The code units a line must start with for one of the heading or list
    expressions to apply: [#], [-] or a digit. *)
Definition marker_start (c : code_unit) : bool :=
  (c =? 35)%N || (c =? 45)%N || is_digit c.

(** [calm trig bol s]: no line of [s] starts with a code unit in [trig];
    [bol] tells whether [s] itself starts a line. *)
Fixpoint calm (trig : code_unit -> bool) (bol : bool) (s : jsstr) : bool :=
  match s with
  | [] => true
  | c :: s' => negb (bol && trig c) && calm trig (is_line_terminator c) s'
  end.

Definition star_free (s : jsstr) : bool :=
  forallb (fun c => negb (c =? 42)%N) s.

(** The number of asterisks of a text. *)
Definition stars (s : jsstr) : nat := length (filter (N.eqb 42) s).

Definition one_line (s : jsstr) : bool :=
  forallb (fun c => negb (is_line_terminator c)) s.

(** A line that no rule of [convert] applies to. *)
Definition inert_line (l : jsstr) : bool :=
  plain l && match l with
             | [] => true
             | c :: _ => negb (marker_start c)
             end.

(** [x] is empty or starts with a code unit outside [p]. *)
Definition starts_without (p : code_unit -> bool) (x : jsstr) : bool :=
  match x with
  | [] => true
  | c :: _ => negb (p c)
  end.

(** A document made of heading lines and of lines of text. *)
Inductive depth := One | Two | Three.

Inductive block :=
| Heading (d : depth) (text : jsstr)
| Para (text : jsstr).

Definition marker_of (d : depth) : jsstr :=
  match d with
  | One => js "# "
  | Two => js "## "
  | Three => js "### "
  end.

Definition tag_of (d : depth) : jsstr :=
  match d with
  | One => js "h3"
  | Two => js "h4"
  | Three => js "h5"
  end.

Definition source_line (b : block) : jsstr :=
  match b with
  | Heading d text => marker_of d ++ text
  | Para text => text
  end.

Definition html_line (b : block) : jsstr :=
  match b with
  | Heading d text => wrap (tag_of d) text
  | Para text => text
  end.

Definition block_ok (b : block) : bool :=
  match b with
  | Heading _ text => plain text
  | Para text => inert_line text
  end.

(** What a heading expression does to one line. *)
Definition heading_line (marker tag l : jsstr) : jsstr :=
  if starts_with marker l then wrap tag (skipn (length marker) l) else l.

(** [r] is empty or starts with a line terminator. *)
Definition at_line_end (r : jsstr) : bool :=
  starts_without (fun c => negb (is_line_terminator c)) r.

(** What a scan gives for the rest [r] of the subject once a line has been
    read to its end. *)
Definition resume (m : matcher) (r : jsstr) : jsstr :=
  match r with
  | [] => []
  | c :: rest => c :: scan m 0 (Some c) rest
  end.

(** The lines of a document while the three heading rules are applied. *)
Definition line_after (stage : nat) (b : block) : jsstr :=
  match b with
  | Heading Three _ => if 1 <=? stage then html_line b else source_line b
  | Heading Two _ => if 2 <=? stage then html_line b else source_line b
  | Heading One _ => if 3 <=? stage then html_line b else source_line b
  | Para text => text
  end.

(** An expression that needs one of the code units in [trig] to start with. *)
Definition silent_off (trig : code_unit -> bool) (m : matcher) : Prop :=
  forall prev c s, trig c = false -> m prev (c :: s) = None.

(** The cards other than the form. *)
Definition job_cards_visible (r : Regions) : nat :=
  length (filter negb [progress_hidden r; results_hidden r; error_hidden r]).

(** What the browser holds about timers is consistent with the script's
    [pollingTimer]: ids are positive, below the next id and distinct, and the
    timer the script holds is set. *)
Definition timers_consistent (st : State) : Prop :=
  next_timer st <> 0
  /\ NoDup (timers st)
  /\ (forall t, In t (timers st) -> 0 < t < next_timer st)
  /\ (forall t, pollingTimer st = Some t -> In t (timers st)).

(** The cards as the four ways of entering a view leave them. *)
Definition progress_only : Regions :=
  {| form_hidden := true; progress_hidden := false;
     results_hidden := true; error_hidden := true |}.

Definition form_only : Regions :=
  {| form_hidden := false; progress_hidden := true;
     results_hidden := true; error_hidden := true |}.

Definition error_over (r : Regions) : Regions :=
  {| form_hidden := form_hidden r; progress_hidden := true;
     results_hidden := true; error_hidden := false |}.

Definition results_over (r : Regions) : Regions :=
  {| form_hidden := form_hidden r; progress_hidden := true;
     results_hidden := false; error_hidden := true |}.

(** The card layouts the page can be in: the form alone or beside the error
    or results card, or one of the three job cards alone. *)
Definition layout_ok (r : Regions) : bool :=
  match form_hidden r, progress_hidden r, results_hidden r, error_hidden r with
  | false, true, true, true
  | false, true, true, false
  | false, true, false, true
  | true, false, true, true
  | true, true, false, true
  | true, true, true, false => true
  | _, _, _, _ => false
  end.

(** A report with two analysis steps, the second one without sources. *)
Definition two_step_report : Report :=
  {| topic := js "t"; summary := Null; key_findings := [Str (js "*k*")];
     detailed_analysis := Null;
     analysis_steps :=
       [ {| question := js "q1"; answer := Str (js "a");
            step_sources := [js "u"; js "v"] |};
         {| question := js "q2"; answer := Undefined; step_sources := [] |} ];
     sources := [] |}.

(** The event is the answer "completed" or "failed" of an awaited status
    call. *)
Definition terminal_answer (e : event) (st : State) : bool :=
  match e with
  | StatusSettled k (Fulfilled s) =>
    (k <? length (fetching st)) && (is_completed s || is_failed s)
  | _ => false
  end.

(** An awaited call that ends without a value. *)
Definition failure {A} (o : outcome A) : bool :=
  match o with
  | Fulfilled _ => false
  | _ => true
  end.

End Shape.
Import Shape.

(** * Properties of the renderer *)

Ltac split_all := repeat match goal with |- _ /\ _ => split end.

Section ScanLemmas.

Lemma scan_past_end (m : matcher) (s : jsstr) :
  forall k prev, length s <= k -> scan m k prev s = [].
Proof.
  induction s as [|c s IH]; intros k prev Hk; [reflexivity|].
  destruct k as [|k]; simpl in *; [lia|].
  apply IH; lia.
Qed.

Lemma plain_unit_not_terminator c :
  plain_unit c = true -> is_line_terminator c = false.
Proof.
  unfold plain_unit; intros H.
  apply andb_prop in H as [H _].
  now apply negb_true_iff in H.
Qed.

Lemma plain_unit_not_star c : plain_unit c = true -> (42 =? c)%N = false.
Proof.
  unfold plain_unit; intros H.
  apply andb_prop in H as [_ H].
  apply negb_true_iff in H. now rewrite N.eqb_sym.
Qed.

Lemma plain_unit_not_newline c : plain_unit c = true -> (c =? 10)%N = false.
Proof.
  intros H. apply plain_unit_not_terminator in H.
  unfold is_line_terminator in H.
  destruct (c =? 10)%N; [discriminate H | reflexivity].
Qed.

Lemma plain_app a b : plain (a ++ b) = plain a && plain b.
Proof. apply forallb_app. Qed.

(** An anchored expression finds nothing inside a line. *)
Lemma scan_inside_line (m : matcher) (Hm : anchored m) (s : jsstr) :
  forall prev, at_line_start prev = false -> plain s = true ->
               scan m 0 prev s = s.
Proof.
  induction s as [|c s IH]; intros prev Hp Hs; [reflexivity|].
  simpl in Hs. apply andb_prop in Hs as [Hc Hs].
  simpl. rewrite (Hm _ _ Hp). f_equal.
  apply IH; [|exact Hs].
  simpl. now apply plain_unit_not_terminator.
Qed.

Lemma replace_all_one_line (m : matcher) (Hm : anchored m) c s :
  m None (c :: s) = None -> plain (c :: s) = true ->
  replace_all m (c :: s) = c :: s.
Proof.
  intros H0 Hs. unfold replace_all. simpl. rewrite H0. f_equal.
  simpl in Hs. apply andb_prop in Hs as [Hc Hs].
  apply scan_inside_line; auto.
  simpl. now apply plain_unit_not_terminator.
Qed.

Lemma heading_anchored marker tag : anchored (heading marker tag).
Proof. intros prev s H. unfold heading. now rewrite H. Qed.

Lemma ordered_item_anchored : anchored ordered_item.
Proof. intros prev s H. unfold ordered_item. now rewrite H. Qed.

Lemma unordered_item_anchored : anchored unordered_item.
Proof. intros prev s H. unfold unordered_item. now rewrite H. Qed.

Lemma starts_with_app p s : starts_with p (p ++ s) = true.
Proof.
  induction p as [|a p IH]; [reflexivity|].
  simpl. now rewrite N.eqb_refl.
Qed.

Lemma skipn_length_app (p s : jsstr) : skipn (length p) (p ++ s) = s.
Proof. induction p as [|a p IH]; [reflexivity | exact IH]. Qed.

Lemma rest_of_line_plain s : plain s = true -> rest_of_line s = s.
Proof.
  induction s as [|c s IH]; intros Hs; [reflexivity|].
  simpl in Hs. apply andb_prop in Hs as [Hc Hs].
  unfold rest_of_line in *. simpl.
  rewrite (plain_unit_not_terminator _ Hc). simpl. now rewrite IH.
Qed.



Lemma line_breaks_plain s : plain s = true -> line_breaks s = s.
Proof.
  induction s as [|c s IH]; intros Hs; [reflexivity|].
  simpl in Hs. apply andb_prop in Hs as [Hc Hs].
  unfold line_breaks in *. cbn [flat_map].
  rewrite (plain_unit_not_newline _ Hc), (IH Hs). reflexivity.
Qed.


End ScanLemmas.





(** C8: [**bold** and *italic*] is rendered with "bold" inside a [strong]
    element and "italic" inside an [em] element, the first before the
    second. *)
Theorem markdownToHtml_bold_then_italic :
  markdownToHtml (Str (js "**bold** and *italic*"))
  = wrap (js "strong") (js "bold") ++ js " and " ++ wrap (js "em") (js "italic")
  /\ wrap (js "strong") (js "bold") = js "<strong>bold</strong>"
  /\ wrap (js "em") (js "italic") = js "<em>italic</em>".
Proof. repeat split; vm_compute; reflexivity. Qed.

(** C10: for the empty string, for [null] and for [undefined],
    [markdownToHtml] returns the empty string. *)
Theorem markdownToHtml_absent :
  markdownToHtml (Str []) = []
  /\ markdownToHtml Null = []
  /\ markdownToHtml Undefined = [].
Proof. repeat split. Qed.

(** * Properties of the page *)

Section HandlerLemmas.

Lemma eqb_eq a b : eqb a b = true <-> a = b.
Proof.
  unfold eqb. destruct (list_eq_dec N.eq_dec a b); split; congruence.
Qed.

Lemma failed_not_completed s : is_failed s = true -> is_completed s = false.
Proof.
  unfold is_failed, is_completed. intros H. apply eqb_eq in H.
  rewrite H. reflexivity.
Qed.

Lemma trim_blank s : forallb is_space s = true -> trim s = [].
Proof.
  intros H. unfold trim.
  assert (E : drop_while is_space s = []).
  { induction s as [|c s IH]; [reflexivity|].
    simpl in H. apply andb_prop in H as [Hc Hs].
    simpl. rewrite Hc. now apply IH. }
  rewrite E. reflexivity.
Qed.

Lemma dom_stopPolling st : dom (stopPolling st) = dom st.
Proof.
  unfold stopPolling. destruct (pollingTimer st) as [[|t]|]; reflexivity.
Qed.

Lemma console_stopPolling st : console (stopPolling st) = console st.
Proof.
  unfold stopPolling. destruct (pollingTimer st) as [[|t]|]; reflexivity.
Qed.

Lemma fetching_stopPolling st : fetching (stopPolling st) = fetching st.
Proof.
  unfold stopPolling. destruct (pollingTimer st) as [[|t]|]; reflexivity.
Qed.

Lemma pollingTimer_stopPolling st :
  pollingTimer st <> Some 0 -> pollingTimer (stopPolling st) = None.
Proof.
  unfold stopPolling. destruct (pollingTimer st) as [[|t]|] eqn:E;
    intros H; try reflexivity; try congruence.
Qed.

Lemma clearInterval_only t : t <> 0 -> clearInterval t [t] = [].
Proof. intros _. unfold clearInterval. simpl. now rewrite Nat.eqb_refl. Qed.

Lemma timers_stopPolling_only st t :
  pollingTimer st = Some t -> t <> 0 -> timers st = [t] ->
  timers (stopPolling st) = [].
Proof.
  intros Hp H0 Ht. unfold stopPolling. rewrite Hp.
  destruct t as [|t]; [congruence|]. simpl. rewrite Ht.
  now apply clearInterval_only.
Qed.

Lemma run_app st es1 es2 :
  run st (es1 ++ es2) =
  match run st es1 with
  | Some st' => run st' es2
  | None => None
  end.
Proof.
  revert st. induction es1 as [|e es1 IH]; intros st; [reflexivity|].
  simpl. destruct (step st e); [apply IH | reflexivity].
Qed.

End HandlerLemmas.

(** C9: in the sources list of a shown report every entry is a link to the
    url of the source whose text is the title of the source, or its url when
    the title is missing or the empty string. *)
Theorem showResults_source_text (s : JobStatus) (r : Report) (st : State)
    (Hr : report s = Some r) :
  sourcesList (reportView (dom (showResults s st)))
  = map (fun source =>
           js "<a href=" ++ dq ++ url source ++ dq ++ js " target=" ++ dq
           ++ js "_blank" ++ dq ++ js ">"
           ++ match title source with
              | Some (c :: t) => c :: t
              | _ => url source
              end
           ++ js "</a>")
        (sources r).
Proof.
  unfold showResults. rewrite Hr. cbn [dom with_dom set_reportView reportView
    sourcesList].
  apply map_ext. intros source. unfold sourceItem, linkText.
  destruct (title source) as [[|c t]|]; reflexivity.
Qed.

(** A source with an empty title is listed under its url. *)
Lemma showResults_source_text_witness :
  sourcesList (reportView (dom
    (showResults (Scenario.completed (Some Scenario.one_source_report))
       initial)))
  = [ js "<a href=" ++ dq ++ js "http://a" ++ dq ++ js " target=" ++ dq
      ++ js "_blank" ++ dq ++ js ">" ++ js "http://a" ++ js "</a>" ].
Proof.
  apply (showResults_source_text _ Scenario.one_source_report initial).
  reflexivity.
Defined.

(** C2 does not hold as stated: an error shown from the form view, as the
    refusal of a blank topic does, leaves the form card and the error card
    visible together. *)
Lemma showError_keeps_form_visible :
  ~ (forall st message, reachable st ->
       visible_count (regions (dom (showError message st))) <= 1).
Proof.
  intros H.
  specialize (H initial (js "e") (ex_intro _ [] eq_refl)).
  vm_compute in H. lia.
Qed.

(** C2, amended: [showProgressView] and [resetResearch] leave exactly one card
    visible, whatever was visible before.  [showError] and [showResults] (for
    a status with a report) show their own card and hide the other two of the
    progress, results and error cards, but leave the form card as it was: one
    card is visible afterwards if the form was hidden, two if it was not. *)
Theorem regions_after_entering (st : State) (topic message : jsstr)
    (s : JobStatus) (r : Report) (Hr : report s = Some r) :
  let form_was_hidden := form_hidden (regions (dom st)) in
  regions (dom (showProgressView topic st))
    = {| form_hidden := true; progress_hidden := false;
         results_hidden := true; error_hidden := true |}
  /\ regions (dom (resetResearch st))
    = {| form_hidden := false; progress_hidden := true;
         results_hidden := true; error_hidden := true |}
  /\ regions (dom (showError message st))
    = {| form_hidden := form_was_hidden; progress_hidden := true;
         results_hidden := true; error_hidden := false |}
  /\ regions (dom (showResults s st))
    = {| form_hidden := form_was_hidden; progress_hidden := true;
         results_hidden := false; error_hidden := true |}
  /\ visible_count (regions (dom (showProgressView topic st))) = 1
  /\ visible_count (regions (dom (resetResearch st))) = 1
  /\ visible_count (regions (dom (showError message st)))
     = (if form_was_hidden then 1 else 2)
  /\ visible_count (regions (dom (showResults s st)))
     = (if form_was_hidden then 1 else 2).
Proof.
  intros form_was_hidden.
  assert (R : regions (dom (resetResearch st))
              = {| form_hidden := false; progress_hidden := true;
                   results_hidden := true; error_hidden := true |}).
  { unfold resetResearch. cbn. reflexivity. }
  assert (S : regions (dom (showResults s st))
              = {| form_hidden := form_was_hidden; progress_hidden := true;
                   results_hidden := false; error_hidden := true |}).
  { unfold showResults. rewrite Hr. reflexivity. }
  rewrite R, S.
  split_all; try reflexivity;
    cbn; subst form_was_hidden; destruct (form_hidden (regions (dom st)));
    reflexivity.
Qed.

(** A report shown over the initial page stands beside the form. *)
Lemma regions_after_entering_witness :
  visible_count (regions (dom
    (showResults (Scenario.completed (Some Scenario.one_source_report))
       initial))) = 2.
Proof.
  apply (regions_after_entering initial [] []
           (Scenario.completed (Some Scenario.one_source_report))
           Scenario.one_source_report).
  reflexivity.
Defined.

(** C3 does not hold as stated: a submission with a blank topic changes what
    the page shows, the error card is revealed beside the form. *)
Lemma blank_topic_changes_the_view :
  ~ (forall topic_value depth_value maxSources_value,
       forallb is_space topic_value = true ->
       regions (dom (handleSubmitResearch topic_value depth_value
                       maxSources_value initial))
       = regions (dom initial)).
Proof.
  intros H. specialize (H (js " ") (js "3") (js "10") eq_refl).
  vm_compute in H. discriminate H.
Qed.

(** C3, amended: for a topic that is empty or all whitespace,
    [handleSubmitResearch] shows the message asking for a topic in the error
    card and returns: no call is issued, no job id is stored and no timer is
    set, nothing is logged, the submit button and the form card stay as they
    were, the progress and results cards are hidden and the error card is
    shown.  Submitting a blank topic again changes nothing more. *)
Theorem handleSubmitResearch_blank_topic
    (topic_value depth_value maxSources_value : jsstr) (st : State)
    (Hblank : forallb is_space topic_value = true) :
  let st' := handleSubmitResearch topic_value depth_value maxSources_value st in
  starting st' = starting st
  /\ fetching st' = fetching st
  /\ activeResearchId st' = activeResearchId st
  /\ pollingTimer st' = pollingTimer st
  /\ timers st' = timers st
  /\ console st' = console st
  /\ startResearchBtn_disabled (dom st') = startResearchBtn_disabled (dom st)
  /\ regions (dom st')
     = {| form_hidden := form_hidden (regions (dom st));
          progress_hidden := true; results_hidden := true;
          error_hidden := false |}
  /\ errorMessage (dom st') = js "请输入研究主题"
  /\ (forall topic2 depth2 maxSources2,
        forallb is_space topic2 = true ->
        handleSubmitResearch topic2 depth2 maxSources2 st' = st').
Proof.
  assert (E : forall t d m s, forallb is_space t = true ->
              handleSubmitResearch t d m s = showError (js "请输入研究主题") s).
  { intros t d m s0 Hb. unfold handleSubmitResearch.
    rewrite (trim_blank _ Hb). reflexivity. }
  intros st'. subst st'. rewrite (E _ _ _ _ Hblank).
  split_all; try reflexivity.
  intros t2 d2 m2 H2. rewrite (E _ _ _ _ H2).
  destruct st as [[[fh ph rh eh] sd sh nd pt pc cs rv em] a p ts n sg fg c].
  reflexivity.
Qed.

(** Two spaces as topic: no start call is awaited afterwards. *)
Lemma handleSubmitResearch_blank_topic_witness :
  starting (handleSubmitResearch (js "  ") (js "3") (js "10") initial) = [].
Proof.
  apply (handleSubmitResearch_blank_topic (js "  ") (js "3") (js "10") initial).
  reflexivity.
Defined.

(** C5 does not hold as stated: when a tick is answered "completed" without a
    report, the page stays on the progress card, the form of the idle view is
    not brought back, and nothing is written to the console. *)
Lemma completed_without_report_stays_on_progress :
  option_map (fun st => (regions (dom st), console st))
    (run initial Scenario.completed_without_report)
  = Some ({| form_hidden := true; progress_hidden := false;
             results_hidden := true; error_hidden := true |}, []).
Proof. vm_compute. reflexivity. Qed.

(** C5, amended: when an awaited status call is answered "completed" without
    a report, [showResults] does nothing: the tick has updated the progress
    bar, enabled the button of the progress card and stopped the polling, and
    that is all.  The cards stay as they were (the progress card for a page
    that was polling), nothing of a report is rendered, no error is shown,
    nothing is logged and nothing is thrown. *)
Theorem tick_completed_without_report (st : State) (k : nat)
    (id : option jsstr) (s : JobStatus)
    (Hk : nth_error (fetching st) k = Some id)
    (Hc : is_completed s = true) (Hr : report s = None)
    (Ht : pollingTimer st <> Some 0) :
  let st' := handle (StatusSettled k (Fulfilled s)) st in
  showResults s st' = st'
  /\ regions (dom st') = regions (dom st)
  /\ reportView (dom st') = reportView (dom st)
  /\ errorMessage (dom st') = errorMessage (dom st)
  /\ console st' = console st
  /\ pollingTimer st' = None
  /\ percentage (dom st') = Math_round (progress s * 100)
  /\ currentStep (dom st') = current_step s
  /\ newResearchBtn_disabled (dom st') = false.
Proof.
  intros st'. subst st'. unfold handle. rewrite Hk.
  unfold tick_resumed. rewrite Hc. cbn [orb].
  unfold showResults. rewrite Hr.
  rewrite dom_stopPolling, console_stopPolling.
  unfold updateProgressView. rewrite Hc. cbn [orb].
  split_all; try reflexivity.
  apply pollingTimer_stopPolling. exact Ht.
Qed.

(** A job is started, its first tick is answered "completed" without a
    report: the page stays on the progress card. *)
Lemma tick_completed_without_report_witness :
  regions (dom
    (handle (StatusSettled 0 (Fulfilled (Scenario.completed None)))
       (tick (handleSubmitResearch_resumed (js "x") (Scenario.started "a")
                initial))))
  = {| form_hidden := true; progress_hidden := false;
       results_hidden := true; error_hidden := true |}
  /\ console
       (handle (StatusSettled 0 (Fulfilled (Scenario.completed None)))
          (tick (handleSubmitResearch_resumed (js "x") (Scenario.started "a")
                   initial)))
     = []
  /\ pollingTimer
       (handle (StatusSettled 0 (Fulfilled (Scenario.completed None)))
          (tick (handleSubmitResearch_resumed (js "x") (Scenario.started "a")
                   initial)))
     = None
  /\ percentage (dom
       (handle (StatusSettled 0 (Fulfilled (Scenario.completed None)))
          (tick (handleSubmitResearch_resumed (js "x") (Scenario.started "a")
                   initial))))
     = 100%float.
Proof.
  pose proof (tick_completed_without_report
           (tick (handleSubmitResearch_resumed (js "x") (Scenario.started "a")
                    initial))
           0 (Some (js "a")) (Scenario.completed None)
           eq_refl eq_refl eq_refl
           (fun E => eq_ind (Some 1) (fun o => match o with
                                               | Some 1 => True
                                               | _ => False
                                               end) I (Some 0) E)) as H.
  cbn zeta in H.
  destruct H as (_ & H2 & _ & _ & H5 & H6 & H7 & _).
  split; [exact H2|]. split; [exact H5|]. split; [exact H6 | exact H7].
Defined.

(** C6 does not hold as stated: an error string that is present but empty is
    not embedded as it is, the message ends with the text for an unknown
    error. *)
Lemma empty_error_string_is_replaced :
  ~ (forall (st : State) (s : JobStatus) (e : jsstr),
       is_failed s = true -> error s = Some e ->
       errorMessage (dom (tick_resumed (Fulfilled s) st))
       = js "研究失败: " ++ e).
Proof.
  intros H.
  specialize (H initial (Scenario.failed (Some [])) [] eq_refl eq_refl).
  vm_compute in H. discriminate H.
Qed.

Section SequentialTicks.

Lemma run_one_tick t s st :
  polling_with t st ->
  run st (Scenario.tick_events t [s])
  = Some (tick_resumed (Fulfilled s) (set_fetching [] st)).
Proof.
  intros (Ht & Hp & Hf).
  cbn [Scenario.tick_events flat_map app run]. unfold step.
  cbn [deliverable]. rewrite Ht. cbn [existsb]. rewrite Nat.eqb_refl.
  cbn [orb handle]. unfold tick.
  cbn [deliverable fetching set_fetching handle]. rewrite Hf.
  reflexivity.
Qed.

Lemma running_tick t s st :
  polling_with t st -> still_running s = true ->
  exists st',
    run st (Scenario.tick_events t [s]) = Some st'
    /\ polling_with t st'
    /\ regions (dom st') = regions (dom st).
Proof.
  intros Hst Hs. rewrite (run_one_tick _ _ _ Hst).
  destruct Hst as (Ht & Hp & Hf).
  unfold still_running in Hs. apply negb_true_iff in Hs.
  eexists. split; [reflexivity|].
  unfold polling_with, tick_resumed. rewrite Hs.
  unfold updateProgressView. rewrite Hs. cbn. auto.
Qed.

Lemma failed_tick t f st :
  polling_with t st -> t <> 0 -> is_failed f = true ->
  exists st',
    run st (Scenario.tick_events t [f]) = Some st'
    /\ timers st' = [] /\ pollingTimer st' = None /\ fetching st' = []
    /\ regions (dom st')
       = {| form_hidden := form_hidden (regions (dom st));
            progress_hidden := true; results_hidden := true;
            error_hidden := false |}
    /\ errorMessage (dom st')
       = js "研究失败: " ++ match error f with
                            | Some (c :: e) => c :: e
                            | _ => js "未知错误"
                            end.
Proof.
  intros Hst H0 Hfail. rewrite (run_one_tick _ _ _ Hst).
  destruct Hst as (Ht & Hp & Hf).
  pose proof (failed_not_completed _ Hfail) as Hnc.
  eexists. split; [reflexivity|].
  unfold tick_resumed. rewrite Hnc, Hfail. cbn [orb].
  unfold updateProgressView. rewrite Hnc, Hfail. cbn [orb].
  unfold showError.
  cbn [timers pollingTimer fetching dom regions errorMessage with_dom
       on_regions set_errorMessage set_regions set_error_hidden
       set_results_hidden set_progress_hidden form_hidden].
  rewrite dom_stopPolling, fetching_stopPolling.
  split; [|split; [|split; [|split]]].
  - apply timers_stopPolling_only with t; auto.
  - apply pollingTimer_stopPolling. cbn. rewrite Hp. congruence.
  - reflexivity.
  - reflexivity.
  - destruct (error f) as [[|c e]|]; reflexivity.
Qed.

End SequentialTicks.

(** C6, amended: on a page that polls with its one timer, let ticks be
    answered one after the other, first by statuses that are neither
    "completed" nor "failed" and then by a "failed" one.  Afterwards no timer
    is set and no call is awaited, so that no tick fires and none is resumed;
    the error card is shown, the progress and results cards are hidden, and
    the message is "研究失败: " followed by the error string of the status as
    it is, or by "未知错误" when that string is missing or empty. *)
Theorem failed_tick_ends_polling (st : State) (t : nat)
    (rs : list JobStatus) (f : JobStatus)
    (Hst : polling_with t st) (Ht : t <> 0)
    (Hrs : forallb still_running rs = true) (Hf : is_failed f = true) :
  exists st',
    run st (Scenario.tick_events t (rs ++ [f])) = Some st'
    /\ timers st' = [] /\ pollingTimer st' = None /\ fetching st' = []
    /\ (forall t', deliverable st' (TimerFired t') = false)
    /\ (forall k o, deliverable st' (StatusSettled k o) = false)
    /\ regions (dom st')
       = {| form_hidden := form_hidden (regions (dom st));
            progress_hidden := true; results_hidden := true;
            error_hidden := false |}
    /\ errorMessage (dom st')
       = js "研究失败: " ++ match error f with
                            | Some (c :: e) => c :: e
                            | _ => js "未知错误"
                            end.
Proof.
  revert st Hst. induction rs as [|s rs IH]; intros st Hst.
  - destruct (failed_tick t f st Hst Ht Hf)
      as (st' & Hrun & Hts & Hp & Hfe & Hreg & Hmsg).
    exists st'. cbn [app]. rewrite Hrun.
    split_all; auto.
    + intros t'. cbn. rewrite Hts. reflexivity.
    + intros k o. cbn. rewrite Hfe. destruct k; reflexivity.
  - simpl in Hrs. apply andb_prop in Hrs as [Hs Hrs].
    destruct (running_tick t s st Hst Hs) as (st1 & Hrun1 & Hst1 & Hreg1).
    destruct (IH Hrs st1 Hst1) as (st' & Hrun & Hrest).
    exists st'. split.
    + change (Scenario.tick_events t ((s :: rs) ++ [f]))
        with (Scenario.tick_events t [s]
              ++ Scenario.tick_events t (rs ++ [f])).
      rewrite run_app, Hrun1. exact Hrun.
    + rewrite <- Hreg1. exact Hrest.
Qed.

(** The answers running (0.2), running (0.6), failed ("timeout") after a
    started job. *)
Lemma failed_tick_ends_polling_witness :
  exists st',
    run (handleSubmitResearch_resumed (js "x") (Scenario.started "a") initial)
        (Scenario.tick_events 1
           ([Scenario.running (2 / 10); Scenario.running (6 / 10)]
            ++ [Scenario.failed (Some (js "timeout"))])) = Some st'
    /\ timers st' = [] /\ pollingTimer st' = None /\ fetching st' = []
    /\ (forall t', deliverable st' (TimerFired t') = false)
    /\ (forall k o, deliverable st' (StatusSettled k o) = false)
    /\ regions (dom st')
       = {| form_hidden := true; progress_hidden := true;
            results_hidden := true; error_hidden := false |}
    /\ errorMessage (dom st') = js "研究失败: timeout".
Proof.
  apply (failed_tick_ends_polling
           (handleSubmitResearch_resumed (js "x") (Scenario.started "a")
              initial) 1
           [Scenario.running (2 / 10); Scenario.running (6 / 10)]
           (Scenario.failed (Some (js "timeout")))).
  - repeat split.
  - discriminate.
  - reflexivity.
  - reflexivity.
Defined.

(** C1 does not hold as stated: a second tick fires before the first call is
    answered; the first answer is a failure, which ends the polling; the
    second answer arrives afterwards and is applied all the same, as a
    progress update if the job is said to run, as a shown report if it is
    said to be completed. *)
Lemma late_answer_changes_the_page :
  option_map (fun st => (polling st, percentage (dom st)))
    (run initial Scenario.failure_with_call_in_flight)
  = Some (false, 50%float)
  /\ option_map (fun st => (polling st, percentage (dom st)))
       (run initial (Scenario.failure_with_call_in_flight
          ++ [StatusSettled 0 (Fulfilled (Scenario.running (6 / 10)))]))
     = Some (false, 60%float)
  /\ option_map (fun st => (polling st, results_hidden (regions (dom st)),
                            sourcesList (reportView (dom st))))
       (run initial (Scenario.failure_with_call_in_flight
          ++ [StatusSettled 0 (Fulfilled
                (Scenario.completed (Some Scenario.one_source_report)))]))
     = Some (false, false,
             [sourceItem {| url := js "http://a"; title := Some [] |}]).
Proof. repeat split; vm_compute; reflexivity. Qed.

Section LateAnswers.

Lemma cleared_timer_cannot_fire t ts :
  existsb (Nat.eqb t) (clearInterval t ts) = false.
Proof.
  unfold clearInterval. induction ts as [|x ts IH]; [reflexivity|].
  simpl. destruct (x =? t) eqn:E; simpl; [exact IH|].
  rewrite IH, Nat.eqb_sym, E. reflexivity.
Qed.

Lemma nth_error_some_lt {A} (l : list A) k x :
  nth_error l k = Some x -> (k <? length l) = true.
Proof.
  intros H. apply Nat.ltb_lt. apply nth_error_Some. congruence.
Qed.

End LateAnswers.

(** An answer that arrives on a page that is not polling, and what a reset
    does to the timer. *)
Lemma late_answer_applied (st0 st : State) (t k : nat)
    (id : option jsstr) (s : JobStatus)
    (Hp0 : pollingTimer st0 = Some t) (Ht0 : t <> 0)
    (Hp : polling st = false)
    (Hk : nth_error (fetching st) k = Some id) :
  let st' := handle (StatusSettled k (Fulfilled s)) st in
  polling (resetResearch st0) = false
  /\ deliverable (resetResearch st0) (TimerFired t) = false
  /\ fetching (resetResearch st0) = fetching st0
  /\ deliverable st (StatusSettled k (Fulfilled s)) = true
  /\ percentage (dom st') = Math_round (progress s * 100)
  /\ currentStep (dom st') = current_step s
  /\ (forall r, is_completed s = true -> report s = Some r ->
        results_hidden (regions (dom st')) = false
        /\ reportTopic (reportView (dom st')) = topic r
        /\ sourcesList (reportView (dom st')) = map sourceItem (sources r))
  /\ (is_failed s = true ->
        error_hidden (regions (dom st')) = false
        /\ errorMessage (dom st')
           = js "研究失败: " ++ match error s with
                                | Some (c :: e) => c :: e
                                | _ => js "未知错误"
                                end).
Proof.
  intros st'. subst st'.
  assert (R : resetResearch st0
              = let st1 := set_timer_state None (clearInterval t (timers st0))
                             (next_timer st0) st0 in
                on_regions (set_error_hidden true)
                  (on_regions (set_results_hidden true)
                     (on_regions (set_progress_hidden true)
                        (on_regions (set_form_hidden false)
                           (with_dom (set_startResearchBtn false play_label)
                              (set_activeResearchId None st1)))))).
  { unfold resetResearch, stopPolling. rewrite Hp0.
    destruct t as [|t']; [congruence | reflexivity]. }
  rewrite R. cbn zeta.
  split; [reflexivity|].
  split; [cbn; apply cleared_timer_cannot_fire|].
  split; [reflexivity|].
  split; [cbn [deliverable possible_outcome];
          now rewrite (nth_error_some_lt _ _ _ Hk)|].
  unfold handle. rewrite Hk. unfold tick_resumed.
  assert (Hnp : stopPolling (updateProgressView s
                  (set_fetching (remove_nth k (fetching st)) st))
                = updateProgressView s
                    (set_fetching (remove_nth k (fetching st)) st)).
  { unfold stopPolling, polling in *.
    replace (pollingTimer (updateProgressView s
               (set_fetching (remove_nth k (fetching st)) st)))
      with (pollingTimer st)
      by (unfold updateProgressView;
          destruct (is_completed s || is_failed s); reflexivity).
    destruct (pollingTimer st); [discriminate Hp | reflexivity]. }
  rewrite Hnp.
  destruct (is_failed s) eqn:Hfl.
  - pose proof (failed_not_completed _ Hfl) as Hc. rewrite Hc. cbn [orb].
    split; [|split; [|split]].
    + unfold showError, updateProgressView. rewrite Hc, Hfl. reflexivity.
    + unfold showError, updateProgressView. rewrite Hc, Hfl. reflexivity.
    + intros r H. discriminate H.
    + intros _. split; [reflexivity|].
      cbn. destruct (error s) as [[|c e]|]; reflexivity.
  - destruct (is_completed s) eqn:Hc; cbn [orb].
    + split; [|split; [|split]].
      * unfold showResults, updateProgressView. rewrite Hc.
        destruct (report s); reflexivity.
      * unfold showResults, updateProgressView. rewrite Hc.
        destruct (report s); reflexivity.
      * intros r _ Hr. unfold showResults. rewrite Hr. repeat split.
      * intros H. discriminate H.
    + split; [|split; [|split]].
      * unfold updateProgressView. rewrite Hc, Hfl. reflexivity.
      * unfold updateProgressView. rewrite Hc, Hfl. reflexivity.
      * intros r H. discriminate H.
      * intros H. discriminate H.
Qed.

Section AwaitedCalls.

Lemma remove_nth_beyond {A} (l : list A) k :
  nth_error l k = None -> remove_nth k l = l.
Proof.
  intros H. apply nth_error_None in H. unfold remove_nth.
  rewrite firstn_all2, skipn_all2 by lia. apply app_nil_r.
Qed.

Lemma fetching_tick_resumed o st : fetching (tick_resumed o st) = fetching st.
Proof.
  unfold tick_resumed. destruct o as [s|code|msg].
  - unfold updateProgressView, showResults.
    destruct (is_completed s); cbn [orb].
    + destruct (report s); cbn; now rewrite fetching_stopPolling.
    + destruct (is_failed s); cbn; [now rewrite fetching_stopPolling|].
      reflexivity.
  - cbn. now rewrite fetching_stopPolling.
  - cbn. now rewrite fetching_stopPolling.
Qed.

(** An answer takes its own call off the awaited ones and no other. *)
Lemma fetching_answered k o st :
  fetching (handle (StatusSettled k o) st) = remove_nth k (fetching st).
Proof.
  cbn [handle]. destruct (nth_error (fetching st) k) eqn:E.
  - now rewrite fetching_tick_resumed.
  - now rewrite (remove_nth_beyond _ _ E).
Qed.

Lemma stopPolling_held st t :
  pollingTimer st = Some t -> t <> 0 ->
  pollingTimer (stopPolling st) = None
  /\ timers (stopPolling st) = clearInterval t (timers st).
Proof.
  intros Hp Ht. unfold stopPolling. rewrite Hp.
  destruct t as [|t]; [congruence|]. split; reflexivity.
Qed.

(** A terminal answer or a failed call ends the polling. *)
Lemma tick_resumed_ends_polling o st t :
  pollingTimer st = Some t -> t <> 0 ->
  failure o || match o with
               | Fulfilled s => is_completed s || is_failed s
               | _ => false
               end = true ->
  pollingTimer (tick_resumed o st) = None
  /\ timers (tick_resumed o st) = clearInterval t (timers st).
Proof.
  intros Hp Ht Ho. unfold tick_resumed. destruct o as [s|code|msg].
  - cbn [failure orb] in Ho. rewrite Ho.
    assert (Hu : pollingTimer (updateProgressView s st) = Some t
                 /\ timers (updateProgressView s st) = timers st).
    { unfold updateProgressView. rewrite Ho. split; [exact Hp | reflexivity]. }
    destruct Hu as [Hu1 Hu2].
    destruct (stopPolling_held _ _ Hu1 Ht) as [S1 S2]. rewrite Hu2 in S2.
    destruct (is_completed s).
    + unfold showResults. destruct (report s); cbn; auto.
    + destruct (is_failed s); cbn; auto.
  - apply (stopPolling_held (console_error _ _ st) t Hp Ht).
  - apply (stopPolling_held (console_error _ _ st) t Hp Ht).
Qed.

End AwaitedCalls.

(** C1, amended: leaving the polling state, by [resetResearch] or by a
    terminal answer (completed, failed, or a failed call), clears the timer
    that [pollingTimer] holds, so that it fires no more; but the calls that
    are awaited stay awaited: a reset and [stopPolling] drop none of them and
    an answer takes off only its own call.  When a page that is not polling
    receives the answer of such a call, the answer is applied as at any other
    time: the progress bar and the step text are updated, a "completed"
    answer with a report shows the results card filled from that report, and
    a "failed" answer shows the error card with its message. *)
Theorem awaited_answer_is_applied (st0 st : State) (t k k0 : nat)
    (id : option jsstr) (s : JobStatus) (o0 : outcome JobStatus)
    (Hp0 : pollingTimer st0 = Some t) (Ht0 : t <> 0)
    (Hp : polling st = false)
    (Hk : nth_error (fetching st) k = Some id) :
  let st' := handle (StatusSettled k (Fulfilled s)) st in
  let st1 := handle (StatusSettled k0 o0) st0 in
  polling (resetResearch st0) = false
  /\ deliverable (resetResearch st0) (TimerFired t) = false
  /\ fetching (resetResearch st0) = fetching st0
  /\ fetching (stopPolling st0) = fetching st0
  /\ fetching st1 = remove_nth k0 (fetching st0)
  /\ (k0 < length (fetching st0) ->
      failure o0 || terminal_answer (StatusSettled k0 o0) st0 = true ->
      polling st1 = false /\ deliverable st1 (TimerFired t) = false)
  /\ deliverable st (StatusSettled k (Fulfilled s)) = true
  /\ fetching st' = remove_nth k (fetching st)
  /\ percentage (dom st') = Math_round (progress s * 100)
  /\ currentStep (dom st') = current_step s
  /\ (forall r, is_completed s = true -> report s = Some r ->
        results_hidden (regions (dom st')) = false
        /\ reportTopic (reportView (dom st')) = topic r
        /\ sourcesList (reportView (dom st')) = map sourceItem (sources r))
  /\ (is_failed s = true ->
        error_hidden (regions (dom st')) = false
        /\ errorMessage (dom st')
           = js "研究失败: " ++ match error s with
                                | Some (c :: e) => c :: e
                                | _ => js "未知错误"
                                end).
Proof.
  intros st' st1.
  destruct (late_answer_applied st0 st t k id s Hp0 Ht0 Hp Hk)
    as (A1 & A2 & A3 & A4 & A5 & A6 & A7 & A8).
  split; [exact A1|]. split; [exact A2|]. split; [exact A3|].
  split; [apply fetching_stopPolling|].
  split; [apply fetching_answered|].
  split.
  { intros Hlt Ho. subst st1. cbn [handle].
    destruct (nth_error (fetching st0) k0) as [id0|] eqn:E.
    - assert (Ho' : failure o0 || match o0 with
                                  | Fulfilled s0 => is_completed s0 || is_failed s0
                                  | _ => false
                                  end = true).
      { destruct o0 as [s0|code|msg]; try reflexivity.
        cbn [failure orb terminal_answer] in *.
        now apply andb_prop in Ho as [_ Ho]. }
      destruct (tick_resumed_ends_polling o0
                  (set_fetching (remove_nth k0 (fetching st0)) st0) t
                  Hp0 Ht0 Ho') as [T1 T2].
      split.
      + unfold polling. now rewrite T1.
      + cbn [deliverable]. rewrite T2. apply cleared_timer_cannot_fire.
    - apply nth_error_None in E. lia. }
  split; [exact A4|].
  split; [apply fetching_answered|].
  split; [exact A5|]. split; [exact A6|]. split; [exact A7 | exact A8].
Qed.

(** Two ticks fire before the first call is answered; the first answer is a
    failure, the second answer arrives afterwards. *)
Lemma awaited_answer_is_applied_witness :
  fetching
    (handle (StatusSettled 0 (Fulfilled (Scenario.failed (Some (js "timeout")))))
       (tick (tick (handleSubmitResearch_resumed (js "x")
                      (Scenario.started "a") initial))))
  = [Some (js "a")]
  /\ percentage (dom (handle
       (StatusSettled 0 (Fulfilled (Scenario.running (6 / 10))))
       (handle
          (StatusSettled 0 (Fulfilled (Scenario.failed (Some (js "timeout")))))
          (tick (tick (handleSubmitResearch_resumed (js "x")
                         (Scenario.started "a") initial))))))
     = 60%float.
Proof.
  pose proof (awaited_answer_is_applied
           (tick (tick (handleSubmitResearch_resumed (js "x")
                          (Scenario.started "a") initial)))
           (handle
              (StatusSettled 0
                 (Fulfilled (Scenario.failed (Some (js "timeout")))))
              (tick (tick (handleSubmitResearch_resumed (js "x")
                             (Scenario.started "a") initial))))
           1 0 0 (Some (js "a")) (Scenario.running (6 / 10))
           (Fulfilled (Scenario.failed (Some (js "timeout"))))
           eq_refl (fun E => Nat.neq_succ_0 0 E) eq_refl eq_refl) as H.
  cbn zeta in H.
  destruct H as (_ & _ & _ & _ & H5 & _ & _ & _ & H9 & _).
  split; [exact H5 | exact H9].
Defined.

(** Started, reset and started again one after the other, the page has one
    timer. *)
Lemma restart_after_reset_one_timer (st : State) (topic1 topic2 : jsstr)
    (id1 id2 : jsstr) :
  timers st = [] -> pollingTimer st = None -> next_timer st <> 0 ->
  truthy id1 = true -> truthy id2 = true ->
  let st1 := handleSubmitResearch_resumed topic1 (Fulfilled (Some id1)) st in
  let st2 := resetResearch st1 in
  let st3 := handleSubmitResearch_resumed topic2 (Fulfilled (Some id2)) st2 in
  timers st1 = [next_timer st]
  /\ timers st2 = []
  /\ timers st3 = [S (next_timer st)]
  /\ pollingTimer st3 = Some (S (next_timer st)).
Proof.
  intros Ht Hp Hn H1 H2.
  unfold handleSubmitResearch_resumed, startPolling, resetResearch, stopPolling.
  cbn. rewrite H1. cbn. rewrite Ht.
  destruct (next_timer st) as [|n] eqn:E; [congruence|].
  cbn. rewrite H2. cbn. rewrite Nat.eqb_refl. cbn. auto.
Qed.

(** C4 is broken by the script: the "new research" button of the error card
    is pressed while a start call is awaited and the form is submitted again;
    when both start calls are answered, [startPolling] runs twice and the
    first timer is overwritten in [pollingTimer] without being cleared.  Two
    timers tick; the first one outlives the job and every later reset. *)
Theorem reset_while_starting_leaves_two_timers :
  option_map (fun st => (timers st, pollingTimer st, activeResearchId st))
    (run initial Scenario.reset_while_starting)
  = Some ([2; 1], Some 2, Some (js "b"))
  /\ option_map (fun st => (timers st, pollingTimer st, activeResearchId st,
                            regions (dom st), deliverable st (TimerFired 1)))
       (run initial Scenario.reset_while_starting_then_over)
     = Some ([1], None, None,
             {| form_hidden := false; progress_hidden := true;
                results_hidden := true; error_hidden := true |}, true).
Proof. split; vm_compute; reflexivity. Qed.

(** * Further properties of the renderer *)

Section ScanShapes.

Lemma plain_one_line s : plain s = true -> one_line s = true.
Proof.
  induction s as [|c s IH]; intros H; [reflexivity|].
  simpl in *. apply andb_prop in H as [Hc Hs].
  rewrite (plain_unit_not_terminator _ Hc). now apply IH.
Qed.

Lemma plain_star_free s : plain s = true -> star_free s = true.
Proof.
  induction s as [|c s IH]; intros H; [reflexivity|].
  simpl in *. apply andb_prop in H as [Hc Hs].
  apply plain_unit_not_star in Hc. rewrite N.eqb_sym in Hc.
  rewrite Hc. now apply IH.
Qed.

Lemma star_free_app a b : star_free (a ++ b) = star_free a && star_free b.
Proof. apply forallb_app. Qed.

(** Inside a line an anchored expression is never tried with success; at a
    line start it needs its first code unit. *)
Lemma scan_calm (m : matcher) trig (Ha : anchored m) (Hq : silent_off trig m) :
  forall s prev, calm trig (at_line_start prev) s = true -> scan m 0 prev s = s.
Proof.
  induction s as [|c s IH]; intros prev H; [reflexivity|].
  cbn [calm] in H. apply andb_prop in H as [Hc Hs].
  cbn [scan].
  assert (E : m prev (c :: s) = None).
  { destruct (at_line_start prev) eqn:B.
    - apply Hq. cbn in Hc. now apply negb_true_iff in Hc.
    - now apply Ha. }
  rewrite E. f_equal. apply IH. exact Hs.
Qed.

Lemma replace_all_calm (m : matcher) trig :
  anchored m -> silent_off trig m ->
  forall s, calm trig true s = true -> replace_all m s = s.
Proof. intros Ha Hq s H. unfold replace_all. now apply scan_calm with trig. Qed.

Lemma calm_one_line trig s : one_line s = true -> calm trig false s = true.
Proof.
  induction s as [|c s IH]; intros H; [reflexivity|].
  simpl in H. apply andb_prop in H as [Hc Hs].
  cbn [calm andb negb]. apply negb_true_iff in Hc. rewrite Hc. now apply IH.
Qed.

Lemma heading_silent marker tag trig :
  (forall c, trig c = false -> (35 =? c)%N = false) ->
  silent_off trig (heading (35%N :: marker) tag).
Proof.
  intros Ht prev c s Hc. unfold heading. cbn [starts_with].
  rewrite (Ht _ Hc). cbn [andb]. now rewrite andb_false_r.
Qed.

Lemma ordered_item_silent trig :
  (forall c, trig c = false -> is_digit c = false) ->
  silent_off trig ordered_item.
Proof.
  intros Ht prev c s Hc. unfold ordered_item.
  destruct (at_line_start prev); [|reflexivity].
  cbn [take_while]. now rewrite (Ht _ Hc).
Qed.

Lemma unordered_item_silent trig :
  (forall c, trig c = false -> (c =? 45)%N = false) ->
  silent_off trig unordered_item.
Proof.
  intros Ht prev c s Hc. unfold unordered_item.
  destruct (at_line_start prev); [|reflexivity].
  now rewrite (Ht _ Hc).
Qed.

Lemma marker_start_hash c : marker_start c = false -> (35 =? c)%N = false.
Proof.
  unfold marker_start. intros H.
  apply orb_false_elim in H as [H _]. apply orb_false_elim in H as [H _].
  now rewrite N.eqb_sym.
Qed.

Lemma marker_start_dash c : marker_start c = false -> (c =? 45)%N = false.
Proof.
  unfold marker_start. intros H.
  apply orb_false_elim in H as [H _]. now apply orb_false_elim in H as [_ H].
Qed.

Lemma marker_start_digit c : marker_start c = false -> is_digit c = false.
Proof. unfold marker_start. intros H. now apply orb_false_elim in H as [_ H]. Qed.

(** Neither bold nor italic text without an asterisk. *)
Lemma scan_star_free d tag s :
  forall prev, star_free s = true ->
               scan (delimited (42%N :: d) tag) 0 prev s = s.
Proof.
  induction s as [|c s IH]; intros prev Hs; [reflexivity|].
  simpl in Hs. apply andb_prop in Hs as [Hc Hs].
  cbn [scan]. unfold delimited at 1. cbn [starts_with].
  apply negb_true_iff in Hc. rewrite N.eqb_sym in Hc. rewrite Hc.
  cbn [andb]. f_equal. now apply IH.
Qed.

Lemma line_breaks_app a b : line_breaks (a ++ b) = line_breaks a ++ line_breaks b.
Proof. unfold line_breaks. apply flat_map_app. Qed.

(** Text without markup: only the line feeds are replaced. *)
Lemma convert_markup_free s :
  star_free s = true -> calm marker_start true s = true ->
  markdownToHtml (Str s) = line_breaks s.
Proof.
  intros Hs Hc.
  assert (E : convert s = line_breaks s).
  { unfold convert, h5, h4, h3.
    change (js "### ") with (35%N :: js "## ").
    change (js "## ") with (35%N :: js "# ").
    change (js "# ") with (35%N :: js " ").
    rewrite (replace_all_calm _ marker_start (heading_anchored _ _)
               (heading_silent _ _ _ marker_start_hash) s Hc).
    rewrite (replace_all_calm _ marker_start (heading_anchored _ _)
               (heading_silent _ _ _ marker_start_hash) s Hc).
    rewrite (replace_all_calm _ marker_start (heading_anchored _ _)
               (heading_silent _ _ _ marker_start_hash) s Hc).
    unfold strong, em, replace_all at 3 4.
    change (js "**") with (42%N :: js "*").
    change (js "*") with (42%N :: []).
    rewrite (scan_star_free [42%N] (js "strong") s None Hs).
    rewrite (scan_star_free [] (js "em") s None Hs).
    rewrite (replace_all_calm _ marker_start ordered_item_anchored
               (ordered_item_silent _ marker_start_digit) s Hc).
    rewrite (replace_all_calm _ marker_start unordered_item_anchored
               (unordered_item_silent _ marker_start_dash) s Hc).
    reflexivity. }
  destruct s as [|c s]; [reflexivity | exact E].
Qed.

Lemma inert_lines_calm lines :
  forallb inert_line lines = true ->
  calm marker_start true (join [10%N] lines) = true
  /\ star_free (join [10%N] lines) = true
  /\ line_breaks (join [10%N] lines) = join (js "<br>") lines.
Proof.
  induction lines as [|l ls IH]; intros H; [repeat split|].
  cbn [forallb] in H. apply andb_prop in H as [Hl Hls].
  specialize (IH Hls). destruct IH as (IHc & IHs & IHb).
  unfold inert_line in Hl. apply andb_prop in Hl as [Hp Hf].
  assert (Cl : forall r, calm marker_start true (l ++ r)
                         = calm marker_start (match l with [] => true
                                              | _ => false end) r).
  { intros r. destruct l as [|c l]; [reflexivity|].
    cbn [app calm andb]. rewrite Hf. cbn [andb].
    simpl in Hp. apply andb_prop in Hp as [Hc Hp].
    rewrite (plain_unit_not_terminator _ Hc).
    clear Hf Hc. revert Hp. induction l as [|a l IHl]; intros Hp;
      [reflexivity|].
    simpl in Hp. apply andb_prop in Hp as [Ha Hp].
    cbn [app calm andb negb]. rewrite (plain_unit_not_terminator _ Ha).
    now apply IHl. }
  destruct ls as [|l2 ls].
  - cbn [join]. split; [|split].
    + rewrite <- (app_nil_r l), Cl. destruct l; reflexivity.
    + now apply plain_star_free.
    + now apply line_breaks_plain.
  - change (join [10%N] (l :: l2 :: ls))
      with (l ++ [10%N] ++ join [10%N] (l2 :: ls)).
    change (join (js "<br>") (l :: l2 :: ls))
      with (l ++ js "<br>" ++ join (js "<br>") (l2 :: ls)).
    split; [|split].
    + rewrite Cl. cbn [app calm]. destruct l; cbn; exact IHc.
    + rewrite star_free_app, (plain_star_free _ Hp).
      cbn [app star_free forallb andb]. exact IHs.
    + rewrite !line_breaks_app, (line_breaks_plain _ Hp), IHb. reflexivity.
Qed.

End ScanShapes.

(** Lines of text without markup (no asterisk, no line terminator, not
    starting with [#], [-] or a digit), joined by line feeds, are rendered as
    they are, joined by [<br>]: in particular nothing of them is escaped. *)
Theorem markdownToHtml_plain_lines (lines : list jsstr)
    (Hl : forallb inert_line lines = true) :
  markdownToHtml (Str (join [10%N] lines)) = join (js "<br>") lines.
Proof.
  destruct (inert_lines_calm lines Hl) as (Hc & Hs & Hb).
  rewrite (convert_markup_free _ Hs Hc). exact Hb.
Qed.

(** Two lines, the second one with an element in it. *)
Lemma markdownToHtml_plain_lines_witness :
  markdownToHtml (Str (join [10%N] [js "a b"; js "<i>c</i>"]))
  = js "a b<br><i>c</i>".
Proof.
  apply (markdownToHtml_plain_lines [js "a b"; js "<i>c</i>"]). reflexivity.
Defined.


Section ListItems.

Lemma take_while_app_stop p ws x :
  forallb p ws = true -> starts_without p x = true ->
  take_while p (ws ++ x) = ws.
Proof.
  intros Hw Hx. induction ws as [|w ws IH].
  - destruct x as [|c x]; [reflexivity|]. cbn in *.
    apply negb_true_iff in Hx. now rewrite Hx.
  - simpl in Hw. apply andb_prop in Hw as [Hc Hw].
    cbn [app take_while]. rewrite Hc. f_equal. now apply IH.
Qed.

Lemma drop_while_app_stop p ws x :
  forallb p ws = true -> starts_without p x = true ->
  drop_while p (ws ++ x) = x.
Proof.
  intros Hw Hx. induction ws as [|w ws IH].
  - destruct x as [|c x]; [reflexivity|]. cbn in *.
    apply negb_true_iff in Hx. now rewrite Hx.
  - simpl in Hw. apply andb_prop in Hw as [Hc Hw].
    cbn [app drop_while]. rewrite Hc. now apply IH.
Qed.

Lemma spaces_then_line_app ws x :
  ws <> [] -> forallb is_space ws = true ->
  starts_without is_space x = true -> plain x = true ->
  spaces_then_line (ws ++ x) = Some (x, length ws + length x).
Proof.
  intros Hne Hw Hx Hp. unfold spaces_then_line.
  rewrite (take_while_app_stop _ _ _ Hw Hx), (drop_while_app_stop _ _ _ Hw Hx).
  rewrite (rest_of_line_plain _ Hp).
  destruct ws; [congruence | reflexivity].
Qed.

Lemma calm_plain_prefix trig pre r :
  plain pre = true -> calm trig false (pre ++ r) = calm trig false r.
Proof.
  induction pre as [|c pre IH]; intros H; [reflexivity|].
  simpl in H. apply andb_prop in H as [Hc H].
  cbn [app calm andb negb]. rewrite (plain_unit_not_terminator _ Hc).
  now apply IH.
Qed.

(** White space, possibly with line ends in it, and then plain text. *)
Lemma calm_spaces_then trig ws x :
  (forall c, is_space c = true -> trig c = false) ->
  forallb is_space ws = true -> plain x = true ->
  forall bol,
    (bol = false /\ one_line ws = true) \/ starts_without trig x = true ->
    ws <> [] \/ bol = false \/ starts_without trig x = true ->
    calm trig bol (ws ++ x) = true.
Proof.
  intros Ht Hw Hp. induction ws as [|w ws IH]; intros bol H H'.
  - cbn [app]. destruct x as [|c x]; [reflexivity|].
    simpl in Hp. apply andb_prop in Hp as [Hc Hp].
    cbn [calm]. rewrite (plain_unit_not_terminator _ Hc).
    rewrite (calm_one_line _ _ (plain_one_line _ Hp)), andb_true_r.
    destruct bol; [|reflexivity].
    assert (Hs : starts_without trig (c :: x) = true).
    { destruct H as [[H _]|H]; [discriminate|].
      exact H. }
    cbn in Hs. cbn. exact Hs.
  - simpl in Hw. apply andb_prop in Hw as [Hc Hw].
    cbn [app calm]. rewrite (Ht _ Hc), andb_false_r. cbn [negb andb].
    apply IH; [exact Hw| |].
    + destruct H as [[_ H]|H]; [|now right].
      simpl in H. apply andb_prop in H as [Hl Ho].
      left. split; [now apply negb_true_iff in Hl | exact Ho].
    + destruct H as [[_ H]|H]; [|now right; right].
      simpl in H. apply andb_prop in H as [Hl _].
      right; left. now apply negb_true_iff in Hl.
Qed.

Lemma space_not_hash c : is_space c = true -> (c =? 35)%N = false.
Proof.
  intros H. destruct (c =? 35)%N eqn:E; [|reflexivity].
  apply N.eqb_eq in E. subst c. discriminate H.
Qed.

Lemma space_not_digit c : is_space c = true -> is_digit c = false.
Proof.
  intros H. unfold is_digit.
  destruct (48 <=? c)%N eqn:A; destruct (c <=? 57)%N eqn:B; try reflexivity.
  apply N.leb_le in A, B. exfalso.
  assert (D : forall n, (n <= 9)%nat -> is_space (48 + N.of_nat n)%N = false).
  { intros n Hn. do 10 (destruct n as [|n]; [reflexivity|]). lia. }
  specialize (D (N.to_nat (c - 48)%N)).
  rewrite N2Nat.id in D. replace (48 + (c - 48))%N with c in D by lia.
  rewrite D in H; [discriminate | lia].
Qed.




Lemma space_plain_star c : is_space c = true -> negb (c =? 42)%N = true.
Proof.
  intros H. destruct (c =? 42)%N eqn:E; [|reflexivity].
  apply N.eqb_eq in E. subst c. discriminate H.
Qed.

Lemma spaces_star_free ws : forallb is_space ws = true -> star_free ws = true.
Proof.
  induction ws as [|w ws IH]; intros H; [reflexivity|].
  simpl in H. apply andb_prop in H as [Hw H].
  simpl. now rewrite (space_plain_star _ Hw), IH.
Qed.

Lemma inert_starts_without x trig :
  (forall c, marker_start c = false -> trig c = false) ->
  inert_line x = true -> starts_without trig x = true.
Proof.
  intros Ht H. unfold inert_line in H. apply andb_prop in H as [_ H].
  destruct x as [|c x]; [reflexivity|]. cbn.
  apply negb_true_iff in H. now rewrite (Ht _ H).
Qed.

(** The text after a list marker, as far as an anchored expression with
    first code unit in [trig] is concerned. *)
Lemma calm_after_marker trig pre ws x :
  (forall c, is_space c = true -> trig c = false) ->
  (forall c, marker_start c = false -> trig c = false) ->
  starts_without trig pre = true -> pre <> [] -> plain pre = true ->
  forallb is_space ws = true -> plain x = true ->
  one_line ws || inert_line x = true ->
  calm trig true (pre ++ ws ++ x) = true.
Proof.
  intros Hs Hm Hf Hne Hp Hw Hx Hor.
  destruct pre as [|c pre]; [congruence|].
  cbn in Hf. cbn [app calm andb]. rewrite Hf. cbn [andb].
  simpl in Hp. apply andb_prop in Hp as [Hc Hp].
  rewrite (plain_unit_not_terminator _ Hc), (calm_plain_prefix _ _ _ Hp).
  apply calm_spaces_then; auto.
  apply orb_prop in Hor as [H|H]; [now left | right].
  now apply inert_starts_without.
Qed.

End ListItems.

(** X2: An unordered list item: a dash at the start of the text, white space
    (line ends count as white space here, so the item may begin on a later
    line) and plain text [x] are rendered as one [li] element holding [x];
    the dash and the white space are dropped. *)
Theorem markdownToHtml_unordered_item (ws x : jsstr)
    (Hne : ws <> []) (Hws : forallb is_space ws = true)
    (Hx : plain x = true) (Hx0 : starts_without is_space x = true)
    (Hl : one_line ws || inert_line x = true) :
  markdownToHtml (Str (js "-" ++ ws ++ x)) = wrap (js "li") x.
Proof.
  assert (Hsf : star_free (js "-" ++ ws ++ x) = true).
  { rewrite !star_free_app, (spaces_star_free _ Hws), (plain_star_free _ Hx).
    reflexivity. }
  assert (Hh : calm (fun c => (c =? 35)%N) true (js "-" ++ ws ++ x) = true).
  { apply calm_after_marker; auto; try discriminate.
    - apply space_not_hash.
    - intros c H. apply marker_start_hash in H. now rewrite N.eqb_sym. }
  assert (Hd : calm is_digit true (js "-" ++ ws ++ x) = true).
  { apply calm_after_marker; auto; try discriminate.
    - apply space_not_digit.
    - apply marker_start_digit. }
  assert (HH : forall marker tag,
             replace_all (heading (35%N :: marker) tag) (js "-" ++ ws ++ x)
             = js "-" ++ ws ++ x).
  { intros marker tag.
    apply (replace_all_calm _ (fun c => (c =? 35)%N) (heading_anchored _ _));
      [|exact Hh].
    apply heading_silent. intros c H. now rewrite N.eqb_sym. }
  change (js "-" ++ ws ++ x) with (45%N :: ws ++ x) in *.
  cbn [markdownToHtml]. unfold convert, h5, h4, h3.
  change (js "### ") with (35%N :: js "## ").
  change (js "## ") with (35%N :: js "# ").
  change (js "# ") with (35%N :: js " ").
  rewrite !HH.
  unfold strong, em, replace_all at 3 4.
  change (js "**") with (42%N :: js "*").
  change (js "*") with (42%N :: []).
  rewrite (scan_star_free [42%N] (js "strong") _ None Hsf).
  rewrite (scan_star_free [] (js "em") _ None Hsf).
  rewrite (replace_all_calm _ is_digit ordered_item_anchored
             (ordered_item_silent _ (fun c H => H)) _ Hd).
  assert (E : replace_all unordered_item (45%N :: ws ++ x) = wrap (js "li") x).
  { unfold replace_all. cbn [scan]. unfold unordered_item at 1.
    cbn [at_line_start]. rewrite N.eqb_refl.
    rewrite (spaces_then_line_app _ _ Hne Hws Hx0 Hx).
    rewrite scan_past_end; [apply app_nil_r|].
    rewrite length_app. simpl. lia. }
  rewrite E. apply line_breaks_plain.
  unfold wrap. rewrite !plain_app, Hx. reflexivity.
Qed.

(** A dash alone on its line: the next line becomes the item. *)
Lemma markdownToHtml_unordered_item_witness :
  markdownToHtml (Str (js "-" ++ [10%N; 32%N] ++ js "milk")) = js "<li>milk</li>".
Proof.
  apply (markdownToHtml_unordered_item [10%N; 32%N] (js "milk"));
    [discriminate | reflexivity | reflexivity | reflexivity | reflexivity].
Defined.



Section Emphasis.

Lemma scan_delimited_prev d tag s :
  forall k p q, scan (delimited d tag) k p s = scan (delimited d tag) k q s.
Proof.
  induction s as [|c s IH]; intros k p q; [reflexivity|].
  cbn [scan]. destruct k as [|k]; [|apply IH].
  change (delimited d tag p (c :: s)) with (delimited d tag q (c :: s)).
  destruct (delimited d tag q (c :: s)) as [[out len]|]; f_equal; apply IH.
Qed.

(** Text before the first asterisk is kept. *)
Lemma scan_delimited_prefix d tag a r :
  star_free a = true ->
  forall p, scan (delimited (42%N :: d) tag) 0 p (a ++ r)
            = a ++ scan (delimited (42%N :: d) tag) 0 None r.
Proof.
  induction a as [|c a IH]; intros Ha p.
  - apply scan_delimited_prev.
  - simpl in Ha. apply andb_prop in Ha as [Hc Ha].
    cbn [app scan]. unfold delimited at 1. cbn [starts_with].
    apply negb_true_iff in Hc. rewrite N.eqb_sym in Hc. rewrite Hc.
    cbn [andb app]. f_equal. now apply IH.
Qed.

Lemma scan_skip (m : matcher) u k v :
  forall p, exists q, scan m (length u + k) p (u ++ v) = scan m k q v.
Proof.
  induction u as [|c u IH]; intros p; [now exists p|].
  cbn [length app scan Nat.add]. apply IH.
Qed.

Lemma find_close_plain d x b :
  plain x = true ->
  find_close (42%N :: d) (x ++ (42%N :: d) ++ b) = Some x.
Proof.
  induction x as [|c x IH]; intros Hx.
  - cbn [app find_close starts_with]. rewrite N.eqb_refl, starts_with_app.
    reflexivity.
  - simpl in Hx. apply andb_prop in Hx as [Hc Hx].
    cbn [app find_close starts_with].
    rewrite (plain_unit_not_star _ Hc), (plain_unit_not_terminator _ Hc).
    cbn [andb]. change (x ++ 42%N :: d ++ b) with (x ++ (42%N :: d) ++ b).
    now rewrite (IH Hx).
Qed.

(** A span between two delimiters on one line is replaced, what follows it
    without an asterisk is kept. *)
Lemma scan_delimited_span d tag x b :
  plain x = true -> star_free b = true ->
  scan (delimited (42%N :: d) tag) 0 None
       ((42%N :: d) ++ x ++ (42%N :: d) ++ b)
  = wrap tag x ++ b.
Proof.
  intros Hx Hb. cbn [app scan]. unfold delimited at 1.
  change (42%N :: d ++ x ++ 42%N :: d ++ b)
    with ((42%N :: d) ++ x ++ (42%N :: d) ++ b).
  rewrite starts_with_app, skipn_length_app, (find_close_plain _ _ _ Hx).
  f_equal.
  unfold jsstr, code_unit in *.
  replace (pred (length (42%N :: d) + length x + length (42%N :: d)))
    with (length d + (length x + (length (42%N :: d) + 0)))
    by (simpl; lia).
  destruct (scan_skip (delimited (42%N :: d) tag) d
              (length x + (length (42%N :: d) + 0))
              (x ++ (42%N :: d) ++ b) (Some 42%N)) as [q1 H1].
  destruct (scan_skip (delimited (42%N :: d) tag) x
              (length (42%N :: d) + 0) ((42%N :: d) ++ b) q1) as [q2 H2].
  destruct (scan_skip (delimited (42%N :: d) tag) (42%N :: d) 0 b q2)
    as [q Hq].
  change (d ++ x ++ 42%N :: d ++ b) with (d ++ x ++ (42%N :: d) ++ b).
  unfold jsstr, code_unit in *.
  rewrite H1, H2.
  rewrite Hq. now apply scan_star_free.
Qed.

Lemma stars_app a b : stars (a ++ b) = stars a + stars b.
Proof. unfold stars. now rewrite filter_app, length_app. Qed.

Lemma star_free_stars s : star_free s = true -> stars s = 0.
Proof.
  induction s as [|c s IH]; intros H; [reflexivity|].
  simpl in H. apply andb_prop in H as [Hc H].
  apply negb_true_iff in Hc. rewrite N.eqb_sym in Hc.
  unfold stars in *. cbn [filter]. rewrite Hc. now apply IH.
Qed.

Lemma starts_with_two_stars s :
  starts_with [42%N; 42%N] s = true -> exists r, s = 42%N :: 42%N :: r.
Proof.
  destruct s as [|a [|b r]]; cbn [starts_with]; intros H; try discriminate.
  - rewrite andb_false_r in H. discriminate.
  - apply andb_prop in H as [Ha H]. apply andb_prop in H as [Hb _].
    apply N.eqb_eq in Ha, Hb. subst. now exists r.
Qed.

Lemma find_close_two_stars s cap :
  find_close [42%N; 42%N] s = Some cap -> 2 <= stars s.
Proof.
  revert cap. induction s as [|c s IH]; intros cap H.
  - discriminate H.
  - cbn [find_close] in H.
    destruct (starts_with [42%N; 42%N] (c :: s)) eqn:E.
    + apply starts_with_two_stars in E as [r E]. rewrite E.
      unfold stars. cbn [filter N.eqb Pos.eqb length]. lia.
    + destruct (is_line_terminator c); [discriminate|].
      destruct (find_close [42%N; 42%N] s) as [cap'|] eqn:F; [|discriminate].
      specialize (IH _ eq_refl). unfold stars in *. cbn [filter].
      destruct (42 =? c)%N; cbn [length]; lia.
Qed.

(** Bold text takes four asterisks. *)
Lemma scan_strong_few_stars s :
  forall p, stars s < 4 -> scan strong 0 p s = s.
Proof.
  induction s as [|c s IH]; intros p H; [reflexivity|].
  cbn [scan].
  assert (E : strong p (c :: s) = None).
  { unfold strong, delimited. change (js "**") with [42%N; 42%N].
    destruct (starts_with [42%N; 42%N] (c :: s)) eqn:S; [|reflexivity].
    apply starts_with_two_stars in S as [r S]. rewrite S in *.
    cbn [length skipn].
    destruct (find_close [42%N; 42%N] r) as [cap|] eqn:F; [|reflexivity].
    apply find_close_two_stars in F. unfold stars in *.
    cbn [filter N.eqb Pos.eqb length] in H. lia. }
  rewrite E. f_equal. apply IH.
  unfold stars in *. cbn [filter] in H.
  destruct (42 =? c)%N; cbn [length] in H; lia.
Qed.

Lemma calm_first_line trig s :
  one_line s = true -> starts_without trig s = true -> calm trig true s = true.
Proof.
  intros Hl Hs. destruct s as [|c s]; [reflexivity|].
  cbn in Hs. simpl in Hl. apply andb_prop in Hl as [Hc Hl].
  cbn [calm andb]. rewrite Hs. apply negb_true_iff in Hc. rewrite Hc.
  now apply calm_one_line.
Qed.

(** One line that does not start as a heading or a list item goes through
    the anchored rules unchanged. *)
Lemma anchored_rules_skip_line s :
  one_line s = true -> starts_without marker_start s = true ->
  replace_all h3 (replace_all h4 (replace_all h5 s)) = s
  /\ replace_all unordered_item (replace_all ordered_item s) = s.
Proof.
  intros Hl Hs. pose proof (calm_first_line _ _ Hl Hs) as Hc.
  unfold h5, h4, h3.
  change (js "### ") with (35%N :: js "## ").
  change (js "## ") with (35%N :: js "# ").
  change (js "# ") with (35%N :: js " ").
  rewrite !(replace_all_calm _ marker_start (heading_anchored _ _)
              (heading_silent _ _ _ marker_start_hash) s Hc).
  rewrite (replace_all_calm _ marker_start ordered_item_anchored
             (ordered_item_silent _ marker_start_digit) s Hc).
  rewrite (replace_all_calm _ marker_start unordered_item_anchored
             (unordered_item_silent _ marker_start_dash) s Hc).
  split; reflexivity.
Qed.

Lemma starts_without_app trig a r :
  starts_without trig a = true -> starts_without trig r = true ->
  starts_without trig (a ++ r) = true.
Proof. destruct a; auto. Qed.

End Emphasis.

(** X4: Emphasis inside a line: with plain text [a] before (not starting with
    [#], [-] or a digit), plain text [x] between the markers and plain text
    [b] after, [a**x**b] is rendered as [a<strong>x</strong>b] and [a*x*b] as
    [a<em>x</em>b]; the text around the span is kept as it is. *)
Theorem markdownToHtml_emphasis (a x b : jsstr)
    (Ha : inert_line a = true) (Hx : plain x = true) (Hb : plain b = true) :
  markdownToHtml (Str (a ++ js "**" ++ x ++ js "**" ++ b))
  = a ++ wrap (js "strong") x ++ b
  /\ markdownToHtml (Str (a ++ js "*" ++ x ++ js "*" ++ b))
     = a ++ wrap (js "em") x ++ b.
Proof.
  unfold inert_line in Ha. apply andb_prop in Ha as [Hpa Hfa].
  change (starts_without marker_start a = true) in Hfa.
  assert (Hout : forall tag, plain tag = true ->
            plain (a ++ wrap tag x ++ b) = true
            /\ starts_without marker_start (a ++ wrap tag x ++ b) = true).
  { intros tag Ht. split.
    - unfold wrap. rewrite !plain_app, Hpa, Ht, Hx, Hb. reflexivity.
    - apply starts_without_app; [exact Hfa | reflexivity]. }
  assert (Hin : forall dl, plain_unit 42%N = false -> one_line dl = true ->
            starts_without marker_start (dl ++ x ++ dl ++ b) = true ->
            one_line (a ++ dl ++ x ++ dl ++ b) = true
            /\ starts_without marker_start (a ++ dl ++ x ++ dl ++ b) = true).
  { intros dl _ Hdl Hst. split.
    - unfold one_line in *. rewrite !forallb_app, Hdl.
      fold (one_line a) (one_line x) (one_line b).
      rewrite !plain_one_line by assumption. reflexivity.
    - now apply starts_without_app. }
  assert (Hnil : forall r, markdownToHtml (Str (a ++ 42%N :: r))
                           = convert (a ++ 42%N :: r)).
  { intros r. destruct a; reflexivity. }
  split.
  - destruct (Hin (js "**") eq_refl eq_refl eq_refl) as [Hl Hs].
    destruct (anchored_rules_skip_line _ Hl Hs) as [Hhead _].
    destruct (Hout (js "strong") eq_refl) as [Hp Hs'].
    destruct (anchored_rules_skip_line _ (plain_one_line _ Hp) Hs')
      as [_ Hlist].
    change (js "**" ++ x ++ js "**" ++ b)
      with (42%N :: 42%N :: x ++ js "**" ++ b) in *.
    rewrite Hnil. unfold convert. rewrite Hhead.
    assert (E : replace_all strong (a ++ 42%N :: 42%N :: x ++ js "**" ++ b)
                = a ++ wrap (js "strong") x ++ b).
    { unfold replace_all, strong. change (js "**") with [42%N; 42%N].
      rewrite (scan_delimited_prefix _ _ _ _ (plain_star_free _ Hpa)).
      f_equal.
      apply (scan_delimited_span [42%N] (js "strong") x b Hx
               (plain_star_free _ Hb)). }
    rewrite E.
    unfold em, replace_all at 3. change (js "*") with [42%N].
    rewrite (scan_star_free [] (js "em") _ None (plain_star_free _ Hp)).
    rewrite Hlist. now apply line_breaks_plain.
  - destruct (Hin (js "*") eq_refl eq_refl eq_refl) as [Hl Hs].
    destruct (anchored_rules_skip_line _ Hl Hs) as [Hhead _].
    destruct (Hout (js "em") eq_refl) as [Hp Hs'].
    destruct (anchored_rules_skip_line _ (plain_one_line _ Hp) Hs')
      as [_ Hlist].
    change (js "*" ++ x ++ js "*" ++ b)
      with (42%N :: x ++ js "*" ++ b) in *.
    rewrite Hnil. unfold convert. rewrite Hhead.
    assert (E0 : replace_all strong (a ++ 42%N :: x ++ js "*" ++ b)
                 = a ++ 42%N :: x ++ js "*" ++ b).
    { unfold replace_all. apply scan_strong_few_stars.
      change (a ++ 42%N :: x ++ js "*" ++ b)
        with (a ++ [42%N] ++ x ++ [42%N] ++ b).
      rewrite !stars_app.
      rewrite (star_free_stars a), (star_free_stars x), (star_free_stars b)
        by (apply plain_star_free; assumption).
      vm_compute. lia. }
    rewrite E0.
    assert (E : replace_all em (a ++ 42%N :: x ++ js "*" ++ b)
                = a ++ wrap (js "em") x ++ b).
    { unfold replace_all, em. change (js "*") with [42%N].
      rewrite (scan_delimited_prefix _ _ _ _ (plain_star_free _ Hpa)).
      f_equal.
      apply (scan_delimited_span [] (js "em") x b Hx
               (plain_star_free _ Hb)). }
    rewrite E, Hlist. now apply line_breaks_plain.
Qed.

(** A word in the middle of a sentence. *)
Lemma markdownToHtml_emphasis_witness :
  markdownToHtml (Str (js "a " ++ js "**" ++ js "b" ++ js "**" ++ js " c"))
  = js "a <strong>b</strong> c".
Proof.
  apply (markdownToHtml_emphasis (js "a ") (js "b") (js " c"));
    reflexivity.
Defined.

(** * Further properties of the page *)

Section Invariants.

(** What holds at first and is kept by every handler holds all along. *)
Lemma run_invariant (P : State -> Prop) :
  (forall st e, P st -> P (handle e st)) ->
  forall es st st', P st -> run st es = Some st' -> P st'.
Proof.
  intros Hstep. induction es as [|e es IH]; intros st st' H Hr.
  - simpl in Hr. now inversion Hr; subst.
  - simpl in Hr. unfold step in Hr.
    destruct (deliverable st e); [|discriminate].
    apply (IH (handle e st)); auto.
Qed.

Lemma regions_updateProgressView s st :
  regions (dom (updateProgressView s st)) = regions (dom st).
Proof.
  unfold updateProgressView. destruct (is_completed s || is_failed s);
    reflexivity.
Qed.

Lemma regions_stopPolling st : regions (dom (stopPolling st)) = regions (dom st).
Proof. now rewrite dom_stopPolling. Qed.

Lemma regions_tick_resumed o st :
  let r := regions (dom st) in
  regions (dom (tick_resumed o st))
  = match o with
    | Fulfilled s =>
      if is_completed s then
        match report s with Some _ => results_over r | None => r end
      else if is_failed s then error_over r else r
    | _ => error_over r
    end.
Proof.
  intros r. subst r. destruct o as [s|code|msg].
  - unfold tick_resumed.
    destruct (is_completed s) eqn:Hc; cbn [orb].
    + unfold showResults. destruct (report s).
      * cbn. rewrite regions_stopPolling, regions_updateProgressView.
        reflexivity.
      * now rewrite regions_stopPolling, regions_updateProgressView.
    + destruct (is_failed s) eqn:Hf.
      * cbn. rewrite regions_stopPolling, regions_updateProgressView.
        reflexivity.
      * apply regions_updateProgressView.
  - unfold tick_resumed. cbn. now rewrite regions_stopPolling.
  - unfold tick_resumed. cbn. now rewrite regions_stopPolling.
Qed.

Lemma regions_handleSubmitResearch t d m st :
  regions (dom (handleSubmitResearch t d m st))
  = if truthy (trim t) then regions (dom st)
    else error_over (regions (dom st)).
Proof.
  unfold handleSubmitResearch. destruct (truthy (trim t)); reflexivity.
Qed.

Lemma regions_handleSubmitResearch_resumed topic (o : outcome (option jsstr))
    st :
  regions (dom (handleSubmitResearch_resumed topic o st))
  = match o with
    | Fulfilled _ => progress_only
    | _ => error_over (regions (dom st))
    end.
Proof.
  destruct o as [id|code|msg]; try reflexivity.
  unfold handleSubmitResearch_resumed, startPolling.
  destruct (id_truthy _); reflexivity.
Qed.

Lemma regions_resetResearch st : regions (dom (resetResearch st)) = form_only.
Proof.
  unfold resetResearch. cbn. reflexivity.
Qed.

Lemma layout_ok_handle e st :
  layout_ok (regions (dom st)) = true ->
  layout_ok (regions (dom (handle e st))) = true.
Proof.
  intros H. destruct e as [t d m|k o| t |k o|]; cbn [handle].
  - rewrite regions_handleSubmitResearch.
    destruct (truthy (trim t)); [exact H|].
    destruct (regions (dom st)) as [[] [] [] []]; try discriminate H;
      reflexivity.
  - destruct (nth_error (starting st) k); [|exact H].
    rewrite regions_handleSubmitResearch_resumed.
    destruct o; try reflexivity;
      cbn; destruct (regions (dom st)) as [[] [] [] []];
      try discriminate H; reflexivity.
  - exact H.
  - destruct (nth_error (fetching st) k); [|exact H].
    rewrite regions_tick_resumed. cbn [dom set_fetching].
    destruct o as [s|code|msg];
      [destruct (is_completed s); [destruct (report s)|destruct (is_failed s)]
      | |];
      try exact H;
      destruct (regions (dom st)) as [[] [] [] []]; try discriminate H;
      reflexivity.
  - now rewrite regions_resetResearch.
Qed.

Lemma timers_consistent_stopPolling st :
  timers_consistent st -> timers_consistent (stopPolling st).
Proof.
  intros H. unfold stopPolling.
  destruct (pollingTimer st) as [[|t]|] eqn:E; try exact H.
  destruct H as (Hn & Hd & Hb & Hp).
  unfold timers_consistent. cbn.
  split; [exact Hn|]. split; [|split].
  - unfold clearInterval. now apply NoDup_filter.
  - intros t' Ht'. unfold clearInterval in Ht'. apply filter_In in Ht' as [Ht' _].
    now apply Hb.
  - intros t' Ht'. discriminate Ht'.
Qed.

Lemma timers_consistent_startPolling st :
  timers_consistent st -> timers_consistent (startPolling st).
Proof.
  intros H. unfold startPolling.
  destruct (id_truthy (activeResearchId st)); [|exact H].
  destruct H as (Hn & Hd & Hb & Hp).
  unfold timers_consistent. cbn.
  split; [discriminate|]. split; [|split].
  - constructor; [|exact Hd]. intros Hin. apply Hb in Hin. lia.
  - intros t [Ht|Ht]; [subst; lia|]. apply Hb in Ht. lia.
  - intros t Ht. inversion Ht. now left.
Qed.

Lemma timers_consistent_updateProgressView s st :
  timers_consistent st -> timers_consistent (updateProgressView s st).
Proof.
  unfold updateProgressView. destruct (is_completed s || is_failed s);
    exact (fun H => H).
Qed.

Lemma timers_consistent_handle e st :
  timers_consistent st -> timers_consistent (handle e st).
Proof.
  intros H. destruct e as [t d m|k o| t |k o|]; cbn [handle].
  - unfold handleSubmitResearch. destruct (negb (truthy (trim t))); exact H.
  - destruct (nth_error (starting st) k); [|exact H].
    destruct o as [id|code|msg]; try exact H.
    unfold handleSubmitResearch_resumed.
    apply timers_consistent_startPolling. exact H.
  - exact H.
  - destruct (nth_error (fetching st) k); [|exact H].
    assert (H1 : timers_consistent
                   (set_fetching (remove_nth k (fetching st)) st)) by exact H.
    revert H1. generalize (set_fetching (remove_nth k (fetching st)) st).
    intros st1 H1. unfold tick_resumed.
    destruct o as [s|code|msg].
    + apply (timers_consistent_updateProgressView s) in H1.
      destruct (is_completed s || is_failed s); [|exact H1].
      apply timers_consistent_stopPolling in H1.
      destruct (is_completed s).
      * unfold showResults. destruct (report s); exact H1.
      * destruct (is_failed s); exact H1.
    + apply (timers_consistent_stopPolling (console_error _ _ st1)).
      exact H1.
    + apply (timers_consistent_stopPolling (console_error _ _ st1)).
      exact H1.
  - unfold resetResearch.
    apply timers_consistent_stopPolling in H. exact H.
Qed.

End Invariants.

(** X5: On every page that can be reached, the cards are in one of six layouts:
    the form alone, the form beside the error card or beside the results
    card, or one of the progress, results and error cards alone.  So the page
    is never blank, at most one of the three job cards is shown, and while
    the progress card is shown the form cannot be submitted. *)
Theorem reachable_layout (st : State) (Hst : reachable st) :
  let r := regions (dom st) in
  layout_ok r = true
  /\ 1 <= visible_count r <= 2
  /\ job_cards_visible r <= 1
  /\ (form_hidden r = true -> visible_count r = 1)
  /\ (progress_hidden r = false ->
      forall t d m, deliverable st (Submit t d m) = false).
Proof.
  destruct Hst as [es Hes].
  assert (H : layout_ok (regions (dom st)) = true).
  { apply (run_invariant (fun s => layout_ok (regions (dom s)) = true)
             (fun s e => layout_ok_handle e s) es initial st);
      [reflexivity | exact Hes]. }
  cbn zeta. split; [exact H|].
  unfold visible_count, job_cards_visible. cbn [deliverable].
  destruct (regions (dom st)) as [[] [] [] []]; try discriminate H;
    cbn; repeat split; try lia; try discriminate; reflexivity.
Qed.

(** The page after a blank topic was refused. *)
Lemma reachable_layout_witness :
  visible_count (regions (dom
    (handle (Scenario.submit (js " ")) initial))) <= 2.
Proof.
  apply (reachable_layout (handle (Scenario.submit (js " ")) initial)).
  exists [Scenario.submit (js " ")]. reflexivity.
Defined.

(** X6: On every page that can be reached, the timer ids the browser holds are
    positive, distinct and below the next id, and the timer whose id is in
    [pollingTimer] is one of them: while the script believes it is polling a
    tick can fire, and [stopPolling] clears that timer and no other (one
    timer less is set afterwards, the others stay). *)
Theorem reachable_timers_consistent (st : State) (Hst : reachable st) :
  timers_consistent st
  /\ (forall t, pollingTimer st = Some t ->
        t <> 0
        /\ deliverable st (TimerFired t) = true
        /\ deliverable (stopPolling st) (TimerFired t) = false
        /\ pollingTimer (stopPolling st) = None
        /\ timers (stopPolling st) = filter (fun t' => negb (t' =? t)) (timers st)
        /\ (forall t', In t' (timers (stopPolling st))
                       <-> In t' (timers st) /\ t' <> t)
        /\ length (timers (stopPolling st)) = pred (length (timers st))).
Proof.
  destruct Hst as [es Hes].
  assert (H : timers_consistent st).
  { apply (run_invariant timers_consistent
             (fun s e => timers_consistent_handle e s) es initial st);
      [|exact Hes].
    unfold timers_consistent. cbn.
    split; [discriminate|]. split; [constructor|].
    split; [intros t []|]. intros t Ht. discriminate Ht. }
  split; [exact H|].
  destruct H as (Hn & Hd & Hb & Hp). intros t Ht.
  pose proof (Hp _ Ht) as Hin. pose proof (Hb _ Hin) as Hr.
  assert (Ht0 : t <> 0) by lia.
  destruct (stopPolling_held st t Ht Ht0) as [S1 S2].
  unfold clearInterval in S2.
  split; [exact Ht0|]. split; [|split; [|split; [|split; [|split]]]].
  - cbn. apply existsb_exists. exists t. split; [exact Hin|].
    apply Nat.eqb_refl.
  - cbn [deliverable]. rewrite S2. apply (cleared_timer_cannot_fire t).
  - exact S1.
  - exact S2.
  - intros t'. rewrite S2, filter_In, negb_true_iff, Nat.eqb_neq. tauto.
  - rewrite S2. clear - Hd Hin.
    induction (timers st) as [|x ts IH]; [destruct Hin|].
    inversion Hd as [|? ? Hx Hd']; subst. cbn [filter length].
    destruct (x =? t) eqn:E.
    + apply Nat.eqb_eq in E. subst x. cbn [negb pred].
      assert (F : filter (fun t' => negb (t' =? t)) ts = ts).
      { clear - Hx. induction ts as [|y ts IH]; [reflexivity|].
        cbn [filter]. destruct (y =? t) eqn:E.
        - apply Nat.eqb_eq in E. subst y. exfalso. apply Hx. now left.
        - cbn [negb]. f_equal. apply IH. intros H. apply Hx. now right. }
      now rewrite F.
    + cbn [negb length pred]. destruct Hin as [Hin|Hin].
      * subst x. rewrite Nat.eqb_refl in E. discriminate E.
      * rewrite (IH Hd' Hin). destruct ts; [destruct Hin | reflexivity].
Qed.

(** The page on which two start calls were answered after a reset: two timers
    are set, [stopPolling] clears the one that is held and leaves the
    other. *)
Lemma reachable_timers_consistent_witness :
  timers Scenario.two_timer_page = [2; 1]
  /\ timers (stopPolling Scenario.two_timer_page) = [1].
Proof.
  assert (R : reachable Scenario.two_timer_page).
  { exists Scenario.reset_while_starting. vm_compute. reflexivity. }
  destruct (reachable_timers_consistent Scenario.two_timer_page R) as [_ H].
  destruct (H 2 eq_refl) as (_ & _ & _ & _ & H5 & _).
  split; [reflexivity|]. rewrite H5. reflexivity.
Defined.

(** X7: A successful start: when a topic that is not blank is submitted and the
    start call is answered with a job id that is not empty, the progress card
    is shown alone with the trimmed topic, 0 percent and the initial step
    text, whatever the page showed before; the id is stored, one new timer is
    set and held in [pollingTimer]; the request carried the trimmed topic. *)
Theorem start_succeeds (st : State)
    (topic_value depth_value maxSources_value research_id : jsstr)
    (Ht : truthy (trim topic_value) = true) (Hid : truthy research_id = true) :
  let st1 := handleSubmitResearch topic_value depth_value maxSources_value st in
  let st2 := handle (StartSettled (length (starting st))
                       (Fulfilled (Some research_id))) st1 in
  nth_error (starting st1) (length (starting st))
    = Some {| req_topic := trim topic_value; req_depth := depth_value;
              req_max_sources := maxSources_value |}
  /\ startResearchBtn_disabled (dom st1) = true
  /\ regions (dom st1) = regions (dom st)
  /\ starting st2 = starting st
  /\ regions (dom st2) = progress_only
  /\ progressTopic (dom st2) = trim topic_value
  /\ percentage (dom st2) = 0%float
  /\ currentStep (dom st2) = js "初始化中..."
  /\ activeResearchId st2 = Some research_id
  /\ pollingTimer st2 = Some (next_timer st)
  /\ timers st2 = next_timer st :: timers st
  /\ next_timer st2 = S (next_timer st).
Proof.
  intros st1 st2.
  assert (E1 : st1 = set_starting
                 (starting st ++
                  [{| req_topic := trim topic_value; req_depth := depth_value;
                      req_max_sources := maxSources_value |}])
                 (with_dom (set_startResearchBtn true spinner_label) st)).
  { subst st1. unfold handleSubmitResearch. rewrite Ht. reflexivity. }
  assert (N : nth_error (starting st1) (length (starting st))
              = Some {| req_topic := trim topic_value;
                        req_depth := depth_value;
                        req_max_sources := maxSources_value |}).
  { rewrite E1. cbn [starting set_starting with_dom].
    rewrite nth_error_app2 by lia. now rewrite Nat.sub_diag. }
  assert (R : remove_nth (length (starting st)) (starting st1) = starting st).
  { rewrite E1. cbn [starting set_starting with_dom]. unfold remove_nth.
    rewrite firstn_app, skipn_app, Nat.sub_diag, firstn_all.
    rewrite skipn_all2 by lia.
    replace (S (length (starting st)) - length (starting st)) with 1 by lia.
    cbn [firstn skipn app]. now rewrite !app_nil_r. }
  split; [exact N|].
  subst st2. cbn [handle]. rewrite N, R. cbn [req_topic].
  unfold handleSubmitResearch_resumed, startPolling.
  cbn [activeResearchId set_activeResearchId showProgressView updateProgress
       with_dom on_regions id_truthy].
  rewrite Hid. rewrite E1. repeat split.
Qed.

(** A topic with spaces around it, from the initial page. *)
Lemma start_succeeds_witness :
  progressTopic (dom
    (handle (StartSettled 0 (Fulfilled (Some (js "a"))))
       (handleSubmitResearch (js " x ") (js "3") (js "10") initial)))
  = js "x".
Proof.
  apply (start_succeeds initial (js " x ") (js "3") (js "10") (js "a"));
    reflexivity.
Defined.

(** X8: A failed start: when the awaited start call ends with a response that
    is not ok or with a rejection, no job id is stored and no timer is set;
    the error is logged once; the error card shows "启动研究失败: " followed by
    the message of the error, the form card stays as it was and the submit
    button is enabled again with its first label, so that a visible form can
    be submitted again at once. *)
Theorem start_fails (st : State) (k : nat) (rq : StartRequest)
    (o : outcome (option jsstr))
    (Hk : nth_error (starting st) k = Some rq) (Ho : failure o = true) :
  let st' := handle (StartSettled k o) st in
  activeResearchId st' = activeResearchId st
  /\ pollingTimer st' = pollingTimer st
  /\ timers st' = timers st
  /\ starting st' = remove_nth k (starting st)
  /\ console st' = console st ++ [(js "启动研究失败:", error_message o)]
  /\ regions (dom st') = error_over (regions (dom st))
  /\ errorMessage (dom st') = js "启动研究失败: " ++ error_message o
  /\ startResearchBtn_disabled (dom st') = false
  /\ startResearchBtn_innerHTML (dom st') = play_label
  /\ (forall t d m,
        deliverable st' (Submit t d m)
        = negb (form_hidden (regions (dom st))) && truthy t).
Proof.
  intros st'. subst st'. cbn [handle]. rewrite Hk.
  destruct o as [id|code|msg]; [discriminate Ho| |];
    unfold handleSubmitResearch_resumed; repeat split;
    intros t d m; cbn; now rewrite andb_true_r.
Qed.

(** The server answers 500 to the first start call. *)
Lemma start_fails_witness :
  errorMessage (dom
    (handle (StartSettled 0 (NotOk 500))
       (handleSubmitResearch (js "x") (js "3") (js "10") initial)))
  = js "启动研究失败: API错误: 500".
Proof.
  apply (start_fails
           (handleSubmitResearch (js "x") (js "3") (js "10") initial) 0
           {| req_topic := js "x"; req_depth := js "3";
              req_max_sources := js "10" |} (NotOk 500));
    reflexivity.
Defined.

(** X9: A start answered without a job id: when the answer of the start call
    holds no [research_id] (or an empty one), the progress card is shown but
    no timer is set.  On a first job, where the button of the progress card
    is still disabled, and with nothing else awaited and no timer left, the
    page is then stuck: the browser can deliver no event at all. *)
Theorem start_without_id_is_stuck (st : State) (rq : StartRequest)
    (research_id : option jsstr)
    (Hs : starting st = [rq]) (Hf : fetching st = []) (Ht : timers st = [])
    (Hb : newResearchBtn_disabled (dom st) = true)
    (Hid : id_truthy research_id = false) :
  let st' := handle (StartSettled 0 (Fulfilled research_id)) st in
  regions (dom st') = progress_only
  /\ progressTopic (dom st') = req_topic rq
  /\ timers st' = []
  /\ pollingTimer st' = pollingTimer st
  /\ (forall e, deliverable st' e = false).
Proof.
  intros st'. subst st'. cbn [handle]. rewrite Hs. cbn [nth_error].
  unfold handleSubmitResearch_resumed, startPolling.
  cbn [activeResearchId set_activeResearchId showProgressView updateProgress
       with_dom on_regions].
  rewrite Hid. repeat split; try assumption.
  intros e. destruct e as [t d m|k o|t|k o|]; cbn.
  - reflexivity.
  - destruct k; reflexivity.
  - now rewrite Ht.
  - rewrite Hf. destruct k; reflexivity.
  - now rewrite Hb.
Qed.

(** The first start call of a page is answered without an id. *)
Lemma start_without_id_is_stuck_witness :
  deliverable
    (handle (StartSettled 0 (Fulfilled None))
       (handleSubmitResearch (js "x") (js "3") (js "10") initial))
    NewResearchClicked
  = false.
Proof.
  apply (start_without_id_is_stuck
           (handleSubmitResearch (js "x") (js "3") (js "10") initial)
           {| req_topic := js "x"; req_depth := js "3";
              req_max_sources := js "10" |} None);
    reflexivity.
Defined.

(** X10: A tick that fails in transport: on a page polling with its one timer, a
    tick whose status call ends with a response that is not ok or with a
    rejection ends the polling at once, there is no second try: no timer is
    left and nothing is awaited, the error is logged, and the error card
    shows "获取研究状态失败: " followed by the message of the error. *)
Theorem tick_transport_failure_ends_polling (st : State) (t : nat)
    (o : outcome JobStatus)
    (Hst : polling_with t st) (Ht : t <> 0)
    (Ho : failure o = true) (Hp : possible_outcome o = true) :
  exists st',
    run st [TimerFired t; StatusSettled 0 o] = Some st'
    /\ timers st' = [] /\ pollingTimer st' = None /\ fetching st' = []
    /\ (forall t', deliverable st' (TimerFired t') = false)
    /\ console st' = console st ++ [(js "获取研究状态失败:", error_message o)]
    /\ regions (dom st') = error_over (regions (dom st))
    /\ errorMessage (dom st') = js "获取研究状态失败: " ++ error_message o.
Proof.
  destruct Hst as (Hts & Hpt & Hf).
  assert (Hrun : run st [TimerFired t; StatusSettled 0 o]
                 = Some (tick_resumed o (set_fetching [] st))).
  { cbn [run]. unfold step. cbn [deliverable]. rewrite Hts.
    cbn [existsb]. rewrite Nat.eqb_refl. cbn [orb handle]. unfold tick.
    cbn [deliverable fetching set_fetching handle]. rewrite Hf, Hp.
    reflexivity. }
  eexists. split; [exact Hrun|].
  assert (T : forall lbl msg,
            timers (stopPolling (console_error lbl msg (set_fetching [] st)))
            = []).
  { intros lbl msg. apply timers_stopPolling_only with t; auto. }
  assert (P : forall lbl msg,
            pollingTimer
              (stopPolling (console_error lbl msg (set_fetching [] st)))
            = None).
  { intros lbl msg. apply pollingTimer_stopPolling. cbn. rewrite Hpt.
    congruence. }
  destruct o as [s|code|msg]; [discriminate Ho| |];
    unfold tick_resumed, showError;
    cbn [timers pollingTimer fetching console dom regions errorMessage
         with_dom on_regions set_errorMessage set_regions];
    rewrite T, P, dom_stopPolling, fetching_stopPolling, console_stopPolling;
    repeat split; intros t'; cbn; now rewrite T.
Qed.

(** The status call of the first tick gets a 502. *)
Lemma tick_transport_failure_ends_polling_witness :
  exists st',
    run (handleSubmitResearch_resumed (js "x") (Scenario.started "a") initial)
        [TimerFired 1; StatusSettled 0 (NotOk 502)] = Some st'
    /\ timers st' = [] /\ pollingTimer st' = None /\ fetching st' = []
    /\ (forall t', deliverable st' (TimerFired t') = false)
    /\ console st' = [(js "获取研究状态失败:", js "API错误: 502")]
    /\ regions (dom st')
       = {| form_hidden := true; progress_hidden := true;
            results_hidden := true; error_hidden := false |}
    /\ errorMessage (dom st') = js "获取研究状态失败: API错误: 502".
Proof.
  apply (tick_transport_failure_ends_polling
           (handleSubmitResearch_resumed (js "x") (Scenario.started "a")
              initial) 1 (NotOk 502)).
  - repeat split.
  - discriminate.
  - reflexivity.
  - reflexivity.
Defined.

Section Completion.

Lemma completed_tick t c r st :
  polling_with t st -> t <> 0 ->
  is_completed c = true -> report c = Some r ->
  exists st',
    run st (Scenario.tick_events t [c]) = Some st'
    /\ timers st' = [] /\ pollingTimer st' = None /\ fetching st' = []
    /\ regions (dom st') = results_over (regions (dom st))
    /\ reportView (dom st') = reportView (dom (showResults c st))
    /\ percentage (dom st') = Math_round (progress c * 100)
    /\ newResearchBtn_disabled (dom st') = false.
Proof.
  intros Hst H0 Hc Hr. rewrite (run_one_tick _ _ _ Hst).
  destruct Hst as (Ht & Hp & Hf).
  eexists. split; [reflexivity|].
  unfold tick_resumed. rewrite Hc. cbn [orb].
  unfold updateProgressView. rewrite Hc. cbn [orb].
  unfold showResults. rewrite Hr.
  cbn [timers pollingTimer fetching dom regions reportView percentage
       newResearchBtn_disabled with_dom on_regions set_reportView
       set_regions].
  rewrite dom_stopPolling, fetching_stopPolling.
  split; [|split; [|repeat split]].
  - apply timers_stopPolling_only with t; auto.
  - apply pollingTimer_stopPolling. cbn. rewrite Hp. congruence.
Qed.

Lemma stepItems_index n steps :
  map item_index (stepItems n steps) = seq n (length steps).
Proof.
  revert n. induction steps as [|step steps IH]; intros n; [reflexivity|].
  cbn [stepItems map length seq item_index stepItem]. f_equal. apply IH.
Qed.

Lemma stepItems_map n steps :
  map (fun it => (item_question it, item_answer it, item_sources it))
      (stepItems n steps)
  = map (fun step =>
           (question step, markdownToHtml (answer step),
            match step_sources step with
            | [] => js "无特定来源"
            | _ :: _ => join (js ", ") (step_sources step)
            end)) steps.
Proof.
  revert n. induction steps as [|step steps IH]; intros n; [reflexivity|].
  cbn [stepItems map]. f_equal; [|apply IH].
  unfold stepItem. cbn [item_question item_answer item_sources].
  destruct (step_sources step); reflexivity.
Qed.

End Completion.

(** X11: A job that completes: on a page polling with its one timer, let ticks be
    answered one after the other, first by statuses that are neither
    "completed" nor "failed" and then by a "completed" one that has a report.
    Afterwards no timer is set and nothing is awaited, the results card has
    replaced the progress card (the form card stays as it was), the report
    view is filled from that report, the progress bar shows the last
    percentage and the button of the progress card is enabled. *)
Theorem completed_tick_shows_report (st : State) (t : nat)
    (rs : list JobStatus) (c : JobStatus) (r : Report)
    (Hst : polling_with t st) (Ht : t <> 0)
    (Hrs : forallb still_running rs = true)
    (Hc : is_completed c = true) (Hr : report c = Some r) :
  exists st',
    run st (Scenario.tick_events t (rs ++ [c])) = Some st'
    /\ timers st' = [] /\ pollingTimer st' = None /\ fetching st' = []
    /\ (forall t', deliverable st' (TimerFired t') = false)
    /\ regions (dom st') = results_over (regions (dom st))
    /\ reportTopic (reportView (dom st')) = topic r
    /\ reportSummary (reportView (dom st')) = markdownToHtml (summary r)
    /\ keyFindings (reportView (dom st')) = map markdownToHtml (key_findings r)
    /\ detailedAnalysis (reportView (dom st'))
       = markdownToHtml (detailed_analysis r)
    /\ percentage (dom st') = Math_round (progress c * 100)
    /\ newResearchBtn_disabled (dom st') = false.
Proof.
  revert st Hst. induction rs as [|s rs IH]; intros st Hst.
  - destruct (completed_tick t c r st Hst Ht Hc Hr)
      as (st' & Hrun & Hts & Hp & Hfe & Hreg & Hrv & Hpc & Hnb).
    exists st'. cbn [app]. rewrite Hrun, Hrv.
    unfold showResults. rewrite Hr.
    split_all; auto.
    intros t'. cbn. now rewrite Hts.
  - simpl in Hrs. apply andb_prop in Hrs as [Hs Hrs].
    destruct (running_tick t s st Hst Hs) as (st1 & Hrun1 & Hst1 & Hreg1).
    destruct (IH Hrs st1 Hst1) as (st' & Hrun & Hrest).
    exists st'. split.
    + change (Scenario.tick_events t ((s :: rs) ++ [c]))
        with (Scenario.tick_events t [s]
              ++ Scenario.tick_events t (rs ++ [c])).
      rewrite run_app, Hrun1. exact Hrun.
    + rewrite <- Hreg1. exact Hrest.
Qed.

(** Two running answers and a completed one after a started job. *)
Lemma completed_tick_shows_report_witness :
  exists st',
    run (handleSubmitResearch_resumed (js "x") (Scenario.started "a") initial)
        (Scenario.tick_events 1
           ([Scenario.running (2 / 10); Scenario.running (6 / 10)]
            ++ [Scenario.completed (Some Scenario.one_source_report)]))
    = Some st'
    /\ timers st' = [] /\ pollingTimer st' = None /\ fetching st' = []
    /\ (forall t', deliverable st' (TimerFired t') = false)
    /\ regions (dom st')
       = {| form_hidden := true; progress_hidden := true;
            results_hidden := false; error_hidden := true |}
    /\ reportTopic (reportView (dom st')) = js "t"
    /\ reportSummary (reportView (dom st')) = js "s"
    /\ keyFindings (reportView (dom st')) = []
    /\ detailedAnalysis (reportView (dom st')) = []
    /\ percentage (dom st') = 100%float
    /\ newResearchBtn_disabled (dom st') = false.
Proof.
  apply (completed_tick_shows_report
           (handleSubmitResearch_resumed (js "x") (Scenario.started "a")
              initial) 1
           [Scenario.running (2 / 10); Scenario.running (6 / 10)]
           (Scenario.completed (Some Scenario.one_source_report))
           Scenario.one_source_report).
  - repeat split.
  - discriminate.
  - reflexivity.
  - reflexivity.
  - reflexivity.
Defined.

(** X12: The analysis steps of a shown report are listed in their order and
    numbered from 0 (the number gives the ids of the accordion item); each
    item holds the question, the rendered answer and the sources joined by
    ", ", or "无特定来源" for a step without sources.  Key findings are
    rendered one by one in their order. *)
Theorem showResults_lists (s : JobStatus) (r : Report) (st : State)
    (Hr : report s = Some r) :
  let v := reportView (dom (showResults s st)) in
  map item_index (researchSteps v) = seq 0 (length (analysis_steps r))
  /\ map (fun it => (item_question it, item_answer it, item_sources it))
         (researchSteps v)
     = map (fun step =>
              (question step, markdownToHtml (answer step),
               match step_sources step with
               | [] => js "无特定来源"
               | _ :: _ => join (js ", ") (step_sources step)
               end)) (analysis_steps r)
  /\ keyFindings v = map markdownToHtml (key_findings r)
  /\ length (sourcesList v) = length (sources r).
Proof.
  intros v. subst v. unfold showResults. rewrite Hr.
  cbn [dom with_dom set_reportView reportView researchSteps keyFindings
       sourcesList].
  split; [apply stepItems_index|]. split; [apply stepItems_map|].
  split; [reflexivity|]. apply length_map.
Qed.

(** A report with two steps, the second without sources. *)
Lemma showResults_lists_witness :
  map item_index (researchSteps (reportView (dom
    (showResults (Scenario.completed (Some two_step_report)) initial))))
  = [0; 1].
Proof.
  apply (showResults_lists (Scenario.completed (Some two_step_report))
           two_step_report initial).
  reflexivity.
Defined.

(** X13: Showing a report replaces the report shown before entirely: the report
    view after [showResults] is that of the new report alone, nothing of an
    earlier report is left. *)
Theorem showResults_replaces (s1 s2 : JobStatus) (r2 : Report) (st : State)
    (Hr : report s2 = Some r2) :
  showResults s2 (showResults s1 st) = showResults s2 st.
Proof.
  unfold showResults. rewrite Hr.
  destruct (report s1) as [r1|]; [|reflexivity].
  destruct st as [[[fh ph rh eh] sd sh nd pt pc cs rv em] a p ts n sg fg c].
  reflexivity.
Qed.

(** A report with one source shown over the report with two steps. *)
Lemma showResults_replaces_witness :
  showResults (Scenario.completed (Some Scenario.one_source_report))
    (showResults (Scenario.completed (Some two_step_report)) initial)
  = showResults (Scenario.completed (Some Scenario.one_source_report)) initial.
Proof.
  apply (showResults_replaces _ _ Scenario.one_source_report). reflexivity.
Defined.

(** X14: [resetResearch] brings back the form alone, forgets the job id, stops
    the timer in [pollingTimer] and enables the submit button; done twice it
    does nothing more.  It does not touch what the hidden cards hold (report,
    error message, progress), it does not disable the button of the progress
    card again, and the calls that are awaited stay awaited. *)
Theorem resetResearch_idempotent (st : State) :
  resetResearch (resetResearch st) = resetResearch st
  /\ regions (dom (resetResearch st)) = form_only
  /\ activeResearchId (resetResearch st) = None
  /\ startResearchBtn_disabled (dom (resetResearch st)) = false
  /\ starting (resetResearch st) = starting st
  /\ fetching (resetResearch st) = fetching st
  /\ reportView (dom (resetResearch st)) = reportView (dom st)
  /\ errorMessage (dom (resetResearch st)) = errorMessage (dom st)
  /\ percentage (dom (resetResearch st)) = percentage (dom st)
  /\ newResearchBtn_disabled (dom (resetResearch st))
     = newResearchBtn_disabled (dom st).
Proof.
  unfold resetResearch, stopPolling.
  destruct st as [[[fh ph rh eh] sd sh nd pt pc cs rv em] a p ts n sg fg c].
  cbn [pollingTimer]. destruct p as [[|t]|]; cbn; repeat split.
Qed.

(** X15: The button of the progress card is enabled by the answer "completed" or
    "failed" of an awaited status call and changed by nothing else: once
    enabled, it stays enabled through every later event, a reset and a new
    job included. *)
Theorem newResearchBtn_stays_enabled (e : event) (st : State) :
  newResearchBtn_disabled (dom (handle e st))
  = newResearchBtn_disabled (dom st) && negb (terminal_answer e st).
Proof.
  destruct e as [t d m|k o|t|k o|]; cbn [handle terminal_answer negb].
  - rewrite andb_true_r. unfold handleSubmitResearch.
    destruct (negb (truthy (trim t))); reflexivity.
  - rewrite andb_true_r.
    destruct (nth_error (starting st) k); [|reflexivity].
    destruct o as [id|code|msg]; try reflexivity.
    unfold handleSubmitResearch_resumed, startPolling.
    destruct (id_truthy _); reflexivity.
  - now rewrite andb_true_r.
  - destruct (nth_error (fetching st) k) as [id|] eqn:E.
    + rewrite (nth_error_some_lt _ _ _ E).
      destruct o as [s|code|msg].
      * unfold tick_resumed, updateProgressView.
        destruct (is_completed s) eqn:Hc; cbn [orb andb negb].
        -- unfold showResults. destruct (report s); cbn;
             rewrite dom_stopPolling; cbn; now rewrite andb_false_r.
        -- destruct (is_failed s); cbn [negb].
           ++ cbn. rewrite dom_stopPolling. cbn. now rewrite andb_false_r.
           ++ cbn. now rewrite andb_true_r.
      * unfold tick_resumed. cbn. rewrite dom_stopPolling. cbn.
        now rewrite andb_true_r.
      * unfold tick_resumed. cbn. rewrite dom_stopPolling. cbn.
        now rewrite andb_true_r.
    + assert (L : (k <? length (fetching st)) = false).
      { apply Nat.ltb_ge. now apply nth_error_None. }
      destruct o; cbn [andb negb]; rewrite ?L; cbn;
        now rewrite andb_true_r.
  - rewrite andb_true_r. unfold resetResearch, stopPolling.
    destruct (pollingTimer st) as [[|t]|]; reflexivity.
Qed.

(** * Documents of headings and text *)

Section HeadingLines.

Variables marker tag : jsstr.
Hypothesis marker_plain : plain marker = true.

Local Abbreviation m := (heading (35%N :: marker) tag).

Lemma scan_at_line_end r prev :
  at_line_end r = true -> scan m 0 prev r = resume m r.
Proof.
  destruct r as [|c rest]; [reflexivity|]. unfold at_line_end. cbn [starts_without].
  intros H. apply negb_true_iff in H. apply negb_false_iff in H.
  assert (E : m prev (c :: rest) = None).
  { unfold heading. cbn [starts_with].
    destruct (35 =? c)%N eqn:E; [|now rewrite andb_false_r].
    apply N.eqb_eq in E. subst c. discriminate H. }
  cbn [scan resume]. now rewrite E.
Qed.

Lemma scan_to_line_end l r :
  one_line l = true -> at_line_end r = true ->
  forall prev, at_line_start prev = false ->
               scan m 0 prev (l ++ r) = l ++ resume m r.
Proof.
  intros Hl Hr. induction l as [|c l IH]; intros prev Hp.
  - now apply scan_at_line_end.
  - simpl in Hl. apply andb_prop in Hl as [Hc Hl].
    cbn [app scan].
    rewrite (heading_anchored _ _ _ _ Hp). f_equal.
    apply IH; [exact Hl|]. cbn. now apply negb_true_iff in Hc.
Qed.

Lemma rest_of_line_to_end x r :
  one_line x = true -> at_line_end r = true -> rest_of_line (x ++ r) = x.
Proof.
  intros Hx Hr. induction x as [|c x IH].
  - destruct r as [|c r]; [reflexivity|]. unfold at_line_end in Hr.
    cbn in Hr. apply negb_true_iff in Hr.
    unfold rest_of_line. cbn. now rewrite Hr.
  - simpl in Hx. apply andb_prop in Hx as [Hc Hx].
    unfold rest_of_line in *. cbn [app take_while]. rewrite Hc.
    f_equal. now apply IH.
Qed.

Lemma starts_with_split p l :
  starts_with p l = true -> exists x, l = p ++ x.
Proof.
  revert l. induction p as [|a p IH]; intros l H; [now exists l|].
  destruct l as [|b l]; [discriminate H|].
  cbn [starts_with] in H. apply andb_prop in H as [Hab H].
  apply N.eqb_eq in Hab. subst b.
  destruct (IH _ H) as [x ->]. now exists x.
Qed.

Lemma starts_with_line p l r :
  plain p = true -> at_line_end r = true ->
  starts_with p (l ++ r) = starts_with p l.
Proof.
  intros Hp Hr. revert l. induction p as [|a p IH]; intros l; [reflexivity|].
  simpl in Hp. apply andb_prop in Hp as [Ha Hp].
  destruct l as [|b l].
  - cbn [app]. destruct r as [|c r]; [reflexivity|]. cbn [starts_with].
    unfold at_line_end in Hr. cbn in Hr.
    apply negb_true_iff in Hr. apply negb_false_iff in Hr.
    destruct (a =? c)%N eqn:E; [|reflexivity].
    apply N.eqb_eq in E. subst c.
    apply plain_unit_not_terminator in Ha. congruence.
  - cbn [app starts_with]. now rewrite (IH Hp).
Qed.

(** One line of the subject, read from its start. *)
Lemma scan_heading_line l r prev :
  one_line l = true -> at_line_end r = true -> at_line_start prev = true ->
  scan m 0 prev (l ++ r) = heading_line (35%N :: marker) tag l ++ resume m r.
Proof.
  intros Hl Hr Hp. unfold heading_line.
  assert (Hm : plain (35%N :: marker) = true) by (simpl; exact marker_plain).
  destruct (starts_with (35%N :: marker) l) eqn:S.
  - destruct (starts_with_split _ _ S) as [x ->].
    assert (Hx : one_line x = true).
    { unfold one_line in *.
      rewrite forallb_app in Hl. now apply andb_prop in Hl as [_ Hl]. }
    rewrite skipn_length_app, <- !app_assoc.
    cbn [app scan]. unfold heading at 1. rewrite Hp. cbn [andb].
    change (35%N :: marker ++ x ++ r) with ((35%N :: marker) ++ x ++ r).
    rewrite starts_with_app, skipn_length_app,
      (rest_of_line_to_end _ _ Hx Hr).
    f_equal.
    destruct (scan_skip m marker (length x + 0) (x ++ r) (Some 35%N))
      as [q1 H1].
    destruct (scan_skip m x 0 r q1) as [q2 H2].
    unfold jsstr, code_unit in *.
    replace (pred (length (35%N :: marker) + length x))
      with (length marker + (length x + 0)) by (simpl; lia).
    rewrite H1, H2. now apply scan_at_line_end.
  - destruct l as [|c l].
    + cbn [app]. now apply scan_at_line_end.
    + cbn [app scan].
      assert (E : m prev (c :: l ++ r) = None).
      { unfold heading.
        change (c :: l ++ r) with ((c :: l) ++ r).
        rewrite (starts_with_line _ _ _ Hm Hr), S.
        now rewrite andb_false_r. }
      rewrite E. cbn [app]. f_equal.
      simpl in Hl. apply andb_prop in Hl as [Hc Hl].
      apply scan_to_line_end; auto.
      cbn. now apply negb_true_iff in Hc.
Qed.

(** A heading expression works line by line. *)
Lemma scan_heading_lines lines :
  forallb one_line lines = true ->
  forall prev, at_line_start prev = true ->
  scan m 0 prev (join [10%N] lines)
  = join [10%N] (map (heading_line (35%N :: marker) tag) lines).
Proof.
  induction lines as [|l ls IH]; intros H prev Hp; [reflexivity|].
  simpl in H. apply andb_prop in H as [Hl Hls].
  destruct ls as [|l2 ls].
  - cbn [join map]. rewrite <- (app_nil_r l) at 1.
    rewrite (scan_heading_line l [] prev Hl eq_refl Hp).
    apply app_nil_r.
  - change (join [10%N] (l :: l2 :: ls))
      with (l ++ 10%N :: join [10%N] (l2 :: ls)).
    rewrite (scan_heading_line l (10%N :: join [10%N] (l2 :: ls)) prev Hl
               eq_refl Hp).
    cbn [resume].
    change (join [10%N] (map (heading_line (35%N :: marker) tag)
                           (l :: l2 :: ls)))
      with (heading_line (35%N :: marker) tag l
            ++ 10%N :: join [10%N] (map (heading_line (35%N :: marker) tag)
                                      (l2 :: ls))).
    do 2 f_equal. now apply IH.
Qed.

End HeadingLines.

Section Documents.

Lemma replace_all_heading_lines marker tag lines :
  plain marker = true -> forallb one_line lines = true ->
  replace_all (heading (35%N :: marker) tag) (join [10%N] lines)
  = join [10%N] (map (heading_line (35%N :: marker) tag) lines).
Proof.
  intros Hm Hl. unfold replace_all.
  now apply scan_heading_lines.
Qed.

Lemma line_after_plain stage b :
  block_ok b = true -> plain (line_after stage b) = true.
Proof.
  intros H. destruct b as [d x|x]; cbn in *.
  - assert (W : forall tg, plain tg = true -> plain (wrap tg x) = true)
      by (intros tg Ht; unfold wrap; rewrite !plain_app, Ht, H; reflexivity).
    assert (M : forall mk, plain mk = true -> plain (mk ++ x) = true)
      by (intros mk Hm; now rewrite plain_app, Hm, H).
    destruct d; cbn [line_after];
      match goal with |- context [if ?c then _ else _] => destruct c end;
      first [apply W; reflexivity | apply M; reflexivity].
  - unfold inert_line in H. now apply andb_prop in H as [H _].
Qed.

Lemma heading_line_stage bs :
  forallb block_ok bs = true ->
  map (heading_line (js "### ") (js "h5")) (map (line_after 0) bs)
    = map (line_after 1) bs
  /\ map (heading_line (js "## ") (js "h4")) (map (line_after 1) bs)
     = map (line_after 2) bs
  /\ map (heading_line (js "# ") (js "h3")) (map (line_after 2) bs)
     = map (line_after 3) bs.
Proof.
  intros H. rewrite !map_map.
  assert (P : forall x mk, inert_line x = true ->
              heading_line (35%N :: mk) (js "h") x = x
              /\ forall tg, heading_line (35%N :: mk) tg x = x).
  { intros x mk Hx. unfold inert_line in Hx.
    apply andb_prop in Hx as [_ Hx].
    assert (forall tg, heading_line (35%N :: mk) tg x = x).
    { intros tg. unfold heading_line. destruct x as [|c x]; [reflexivity|].
      cbn [starts_with]. apply negb_true_iff in Hx.
      apply marker_start_hash in Hx. now rewrite Hx. }
    split; auto. }
  split; [|split]; apply map_ext_in; intros b Hb;
    (assert (Ok : block_ok b = true)
       by (rewrite forallb_forall in H; now apply H));
    destruct b as [[| |] x|x]; cbn [line_after Nat.leb];
    try (apply (P x); exact Ok);
    reflexivity.
Qed.

Lemma html_line_inert b : block_ok b = true -> inert_line (html_line b) = true.
Proof.
  intros H. destruct b as [d x|x]; [|exact H]. cbn in H.
  unfold inert_line, html_line, wrap. rewrite !plain_app, H.
  destruct d; reflexivity.
Qed.

End Documents.

(** X16: A document whose lines are headings ([#], [##] or [###], a space and
    plain text) and lines of text without markup is rendered line by line, in
    order: each heading becomes its [h3], [h4] or [h5] element, each other
    line stays as it is, and the line feeds between them become [<br>]. *)
Theorem markdownToHtml_document (bs : list block)
    (Hbs : forallb block_ok bs = true) :
  markdownToHtml (Str (join [10%N] (map source_line bs)))
  = join (js "<br>") (map html_line bs).
Proof.
  assert (L : forall stage,
            forallb one_line (map (line_after stage) bs) = true).
  { intros stage. rewrite forallb_forall. intros l Hl.
    apply in_map_iff in Hl as (b & <- & Hb).
    apply plain_one_line, line_after_plain.
    rewrite forallb_forall in Hbs. now apply Hbs. }
  destruct (heading_line_stage bs Hbs) as (S1 & S2 & S3).
  assert (E0 : map source_line bs = map (line_after 0) bs).
  { apply map_ext. intros [[| |] x|x]; reflexivity. }
  assert (E3 : map (line_after 3) bs = map html_line bs).
  { apply map_ext. intros [[| |] x|x]; reflexivity. }
  assert (Hin : forallb inert_line (map html_line bs) = true).
  { rewrite forallb_forall. intros l Hl.
    apply in_map_iff in Hl as (b & <- & Hb).
    apply html_line_inert. rewrite forallb_forall in Hbs. now apply Hbs. }
  assert (Hh : replace_all h3 (replace_all h4 (replace_all h5
                 (join [10%N] (map source_line bs))))
               = join [10%N] (map html_line bs)).
  { unfold h5, h4, h3. rewrite E0.
    change (js "### ") with (35%N :: js "## ") at 1.
    rewrite (replace_all_heading_lines (js "## ") (js "h5") _ eq_refl (L 0)).
    change (35%N :: js "## ") with (js "### "). rewrite S1.
    change (js "## ") with (35%N :: js "# ") at 1.
    rewrite (replace_all_heading_lines (js "# ") (js "h4") _ eq_refl (L 1)).
    change (35%N :: js "# ") with (js "## "). rewrite S2.
    change (js "# ") with (35%N :: js " ") at 1.
    rewrite (replace_all_heading_lines (js " ") (js "h3") _ eq_refl (L 2)).
    change (35%N :: js " ") with (js "# "). rewrite S3, E3. reflexivity. }
  pose proof (markdownToHtml_plain_lines _ Hin) as Hp.
  destruct (inert_lines_calm _ Hin) as (Hc & Hs & _).
  assert (Hid : replace_all h3 (replace_all h4 (replace_all h5
                  (join [10%N] (map html_line bs))))
                = join [10%N] (map html_line bs)).
  { unfold h5, h4, h3.
    change (js "### ") with (35%N :: js "## ").
    change (js "## ") with (35%N :: js "# ").
    change (js "# ") with (35%N :: js " ").
    now rewrite !(replace_all_calm _ marker_start (heading_anchored _ _)
                    (heading_silent _ _ _ marker_start_hash) _ Hc). }
  assert (Hconv : convert (join [10%N] (map source_line bs))
                  = convert (join [10%N] (map html_line bs))).
  { unfold convert. rewrite Hh, Hid. reflexivity. }
  assert (Hmd : forall s, markdownToHtml (Str s) = convert s)
    by (intros [|c s]; reflexivity).
  rewrite <- Hp, !Hmd. exact Hconv.
Qed.

(** A title, a paragraph, a section title, a paragraph. *)
Lemma markdownToHtml_document_witness :
  markdownToHtml (Str (join [10%N] (map source_line
    [Heading One (js "Title"); Para (js "intro"); Heading Two (js "Sub");
     Para (js "text")])))
  = js "<h3>Title</h3><br>intro<br><h4>Sub</h4><br>text".
Proof.
  apply (markdownToHtml_document
           [Heading One (js "Title"); Para (js "intro");
            Heading Two (js "Sub"); Para (js "text")]).
  reflexivity.
Defined.

(** * Text that looks like markup and is none *)

Section NearMisses.

Lemma find_close_one_star d s cap :
  find_close (42%N :: d) s = Some cap -> 1 <= stars s.
Proof.
  revert cap. induction s as [|c s IH]; intros cap H.
  - discriminate H.
  - cbn [find_close starts_with] in H. unfold stars in *. cbn [filter].
    destruct (42 =? c)%N eqn:E; [cbn [length]; lia|].
    cbn [andb] in H.
    destruct (is_line_terminator c); [discriminate|].
    destruct (find_close (42%N :: d) s) as [cap'|] eqn:F; [|discriminate].
    now apply (IH cap').
Qed.

(** Italic text takes two asterisks. *)
Lemma scan_em_one_star s :
  forall p, stars s < 2 -> scan em 0 p s = s.
Proof.
  induction s as [|c s IH]; intros p H; [reflexivity|].
  cbn [scan].
  assert (E : em p (c :: s) = None).
  { unfold em, delimited. change (js "*") with [42%N].
    cbn [starts_with length skipn].
    destruct (42 =? c)%N eqn:S; [|reflexivity]. cbn [andb].
    destruct (find_close [42%N] s) as [cap|] eqn:F; [|reflexivity].
    apply find_close_one_star in F. unfold stars in *.
    cbn [filter] in H. rewrite S in H. cbn [length] in H. lia. }
  rewrite E. f_equal. apply IH.
  unfold stars in *. cbn [filter] in H.
  destruct (42 =? c)%N; cbn [length] in H; lia.
Qed.

Lemma starts_with_hashes k n x :
  starts_without (fun c => (c =? 32)%N || (c =? 35)%N) x = true ->
  starts_with (repeat 35%N k ++ [32%N]) (repeat 35%N n ++ x) = false.
Proof.
  intros Hx. revert n. induction k as [|k IH]; intros n.
  - destruct n as [|n]; [|reflexivity].
    destruct x as [|c x]; [reflexivity|].
    cbn [starts_without] in Hx. cbn [repeat app starts_with].
    apply negb_true_iff in Hx. apply orb_false_elim in Hx as [Hx _].
    rewrite N.eqb_sym, Hx. reflexivity.
  - destruct n as [|n].
    + destruct x as [|c x]; [reflexivity|].
      cbn [starts_without] in Hx. cbn [repeat app starts_with].
      apply negb_true_iff in Hx. apply orb_false_elim in Hx as [_ Hx].
      rewrite N.eqb_sym, Hx. reflexivity.
    + cbn [repeat app starts_with]. rewrite N.eqb_refl. apply IH.
Qed.

Lemma drop_while_split p s : s = take_while p s ++ drop_while p s.
Proof.
  induction s as [|c s IH]; [reflexivity|]. cbn.
  destruct (p c); [cbn; now f_equal | reflexivity].
Qed.

Lemma take_while_all p s : forallb p (take_while p s) = true.
Proof.
  induction s as [|c s IH]; [reflexivity|]. cbn.
  destruct (p c) eqn:E; [cbn; now rewrite E | reflexivity].
Qed.

Lemma drop_while_starts p s : starts_without p (drop_while p s) = true.
Proof.
  induction s as [|c s IH]; [reflexivity|]. cbn.
  destruct (p c) eqn:E; [exact IH | cbn; now rewrite E].
Qed.

Lemma drop_while_nil p s : drop_while p s = [] -> forallb p s = true.
Proof.
  induction s as [|c s IH]; [reflexivity|]. cbn.
  destruct (p c); [exact IH | discriminate].
Qed.

Lemma forallb_rev_true p (s : jsstr) :
  forallb p (rev s) = true -> forallb p s = true.
Proof.
  rewrite !forallb_forall. intros H c Hc. apply H. now apply in_rev in Hc.
Qed.

(** [trim] takes white space off both ends and nothing else. *)
Lemma trim_split s :
  exists a b,
    s = a ++ trim s ++ b
    /\ forallb is_space a = true /\ forallb is_space b = true
    /\ starts_without is_space (trim s) = true
    /\ starts_without is_space (rev (trim s)) = true.
Proof.
  unfold trim. set (d := drop_while is_space s).
  set (e := drop_while is_space (rev d)).
  exists (take_while is_space s), (rev (take_while is_space (rev d))).
  assert (Ed : d = rev e ++ rev (take_while is_space (rev d))).
  { rewrite <- rev_app_distr. subst e.
    rewrite <- drop_while_split. now rewrite rev_involutive. }
  split; [|split; [|split; [|split]]].
  - rewrite <- Ed. apply drop_while_split.
  - apply take_while_all.
  - apply forallb_rev_true. rewrite rev_involutive. apply take_while_all.
  - pose proof (drop_while_starts is_space s) as Hd. fold d in Hd.
    rewrite Ed in Hd. destruct (rev e); [reflexivity | exact Hd].
  - rewrite rev_involutive. apply drop_while_starts.
Qed.

Lemma trim_not_blank s : forallb is_space s = false -> truthy (trim s) = true.
Proof.
  intros H. destruct (trim s) as [|c t] eqn:E; [|reflexivity].
  exfalso. destruct (trim_split s) as (a & b & Es & Ha & Hb & _).
  rewrite E in Es. cbn [app] in Es.
  rewrite Es, forallb_app, Ha, Hb in H. discriminate H.
Qed.

End NearMisses.

(** X17: One or more [#] without a space after them make no heading: the line
    is rendered as it is (a "#tag", for instance). *)
Theorem markdownToHtml_hashes_without_space (n : nat) (x : jsstr)
    (Hn : 0 < n) (Hx : plain x = true)
    (Hx0 : starts_without (fun c => (c =? 32)%N || (c =? 35)%N) x = true) :
  markdownToHtml (Str (repeat 35%N n ++ x)) = repeat 35%N n ++ x.
Proof.
  assert (Hp : plain (repeat 35%N n ++ x) = true).
  { rewrite plain_app, Hx, andb_true_r. clear. induction n; auto. }
  assert (Hmk : forall k tag,
            replace_all (heading (repeat 35%N k ++ [32%N]) tag)
              (repeat 35%N n ++ x) = repeat 35%N n ++ x).
  { intros k tag. destruct n as [|n']; [lia|].
    change (repeat 35%N (S n') ++ x)
      with (35%N :: repeat 35%N n' ++ x) in *.
    apply replace_all_one_line;
      [apply heading_anchored | | exact Hp].
    unfold heading. cbn [at_line_start andb].
    change (35%N :: repeat 35%N n' ++ x) with (repeat 35%N (S n') ++ x).
    now rewrite starts_with_hashes. }
  destruct n as [|n']; [lia|].
  change (repeat 35%N (S n') ++ x) with (35%N :: repeat 35%N n' ++ x) in *.
  cbn [markdownToHtml]. unfold convert, h5, h4, h3.
  change (js "### ") with (repeat 35%N 3 ++ [32%N]).
  change (js "## ") with (repeat 35%N 2 ++ [32%N]).
  change (js "# ") with (repeat 35%N 1 ++ [32%N]).
  rewrite !Hmk.
  unfold strong, em, replace_all at 3 4.
  change (js "**") with (42%N :: js "*").
  change (js "*") with (42%N :: []).
  rewrite (scan_star_free [42%N] (js "strong") _ None (plain_star_free _ Hp)).
  rewrite (scan_star_free [] (js "em") _ None (plain_star_free _ Hp)).
  rewrite replace_all_one_line;
    [| exact ordered_item_anchored | reflexivity | exact Hp].
  rewrite replace_all_one_line;
    [| exact unordered_item_anchored | reflexivity | exact Hp].
  now apply line_breaks_plain.
Qed.

(** A tag. *)
Lemma markdownToHtml_hashes_without_space_witness :
  markdownToHtml (Str (repeat 35%N 1 ++ js "tag")) = js "#tag".
Proof.
  apply (markdownToHtml_hashes_without_space 1 (js "tag"));
    [lia | reflexivity | reflexivity].
Defined.

(** X18: A single asterisk in a line of text is no markup: with plain text
    before it (not starting with [#], [-] or a digit) and plain text after it,
    the line is rendered as it is (a product "x * y", for instance). *)
Theorem markdownToHtml_lone_asterisk (a b : jsstr)
    (Ha : inert_line a = true) (Hb : plain b = true) :
  markdownToHtml (Str (a ++ js "*" ++ b)) = a ++ js "*" ++ b.
Proof.
  unfold inert_line in Ha. apply andb_prop in Ha as [Hpa Hfa].
  change (starts_without marker_start a = true) in Hfa.
  change (js "*" ++ b) with (42%N :: b).
  assert (Hl : one_line (a ++ 42%N :: b) = true).
  { unfold one_line. rewrite forallb_app. cbn [forallb].
    fold (one_line a) (one_line b).
    now rewrite !plain_one_line by assumption. }
  assert (Hs : starts_without marker_start (a ++ 42%N :: b) = true)
    by (now apply starts_without_app).
  destruct (anchored_rules_skip_line _ Hl Hs) as [Hhead Hlist].
  assert (Hst : stars (a ++ 42%N :: b) = 1).
  { change (a ++ 42%N :: b) with (a ++ [42%N] ++ b).
    rewrite !stars_app, (star_free_stars a), (star_free_stars b)
      by (apply plain_star_free; assumption).
    reflexivity. }
  assert (Hmd : markdownToHtml (Str (a ++ 42%N :: b))
                = convert (a ++ 42%N :: b)) by (destruct a; reflexivity).
  assert (E1 : replace_all strong (a ++ 42%N :: b) = a ++ 42%N :: b)
    by (unfold replace_all; apply scan_strong_few_stars; rewrite Hst; lia).
  assert (E2 : replace_all em (a ++ 42%N :: b) = a ++ 42%N :: b)
    by (unfold replace_all; apply scan_em_one_star; rewrite Hst; lia).
  rewrite Hmd. unfold convert. rewrite Hhead, E1, E2, Hlist.
  unfold line_breaks. clear - Hl.
  induction (a ++ 42%N :: b) as [|c s IH]; [reflexivity|].
  simpl in Hl. apply andb_prop in Hl as [Hc Hl].
  cbn [flat_map].
  assert (E : (c =? 10)%N = false).
  { apply negb_true_iff in Hc. unfold is_line_terminator in Hc.
    destruct (c =? 10)%N; [discriminate Hc | reflexivity]. }
  rewrite E. cbn [app]. f_equal. now apply IH.
Qed.

(** A product. *)
Lemma markdownToHtml_lone_asterisk_witness :
  markdownToHtml (Str (js "x " ++ js "*" ++ js " y = z")) = js "x * y = z".
Proof.
  apply (markdownToHtml_lone_asterisk (js "x ") (js " y = z")); reflexivity.
Defined.

(** X19: A topic that holds anything but white space is accepted: the topic
    requested is the input without the white space at its two ends (and
    nothing else removed), it is not empty, the start call is awaited, the
    submit button is disabled, and no error is shown: the cards and the
    error message stay as they were. *)
Theorem handleSubmitResearch_accepts (st : State)
    (topic_value depth_value maxSources_value : jsstr)
    (Ht : forallb is_space topic_value = false) :
  let st' := handleSubmitResearch topic_value depth_value maxSources_value st in
  exists topic a b,
    starting st' = starting st ++
      [{| req_topic := topic; req_depth := depth_value;
          req_max_sources := maxSources_value |}]
    /\ topic <> []
    /\ topic_value = a ++ topic ++ b
    /\ forallb is_space a = true /\ forallb is_space b = true
    /\ starts_without is_space topic = true
    /\ starts_without is_space (rev topic) = true
    /\ startResearchBtn_disabled (dom st') = true
    /\ regions (dom st') = regions (dom st)
    /\ errorMessage (dom st') = errorMessage (dom st)
    /\ fetching st' = fetching st /\ timers st' = timers st.
Proof.
  intros st'. subst st'.
  pose proof (trim_not_blank _ Ht) as Hne.
  destruct (trim_split topic_value) as (a & b & Es & Ha & Hb & H1 & H2).
  exists (trim topic_value), a, b.
  unfold handleSubmitResearch. rewrite Hne.
  split_all; auto.
  intros E. rewrite E in Hne. discriminate Hne.
Qed.

(** A topic with white space around it and inside. *)
Lemma handleSubmitResearch_accepts_witness :
  exists topic a b,
    starting (handleSubmitResearch (js " a b ") (js "3") (js "10") initial)
    = [] ++ [{| req_topic := topic; req_depth := js "3";
                req_max_sources := js "10" |}]
    /\ topic <> []
    /\ js " a b " = a ++ topic ++ b
    /\ forallb is_space a = true /\ forallb is_space b = true
    /\ starts_without is_space topic = true
    /\ starts_without is_space (rev topic) = true
    /\ startResearchBtn_disabled
         (dom (handleSubmitResearch (js " a b ") (js "3") (js "10") initial))
       = true
    /\ regions
         (dom (handleSubmitResearch (js " a b ") (js "3") (js "10") initial))
       = regions (dom initial)
    /\ errorMessage
         (dom (handleSubmitResearch (js " a b ") (js "3") (js "10") initial))
       = errorMessage (dom initial)
    /\ fetching (handleSubmitResearch (js " a b ") (js "3") (js "10") initial)
       = fetching initial
    /\ timers (handleSubmitResearch (js " a b ") (js "3") (js "10") initial)
       = timers initial.
Proof.
  apply (handleSubmitResearch_accepts initial (js " a b ") (js "3") (js "10")).
  reflexivity.
Defined.
